(** * NatureOS SDK: a shallow embedding of [natureos_sdk] and its properties

    The Python package has three modules: [natureos_sdk/client.py] (the
    asynchronous [NatureOSClient]), [natureos_sdk/exceptions.py] (the error
    taxonomy) and [natureos_sdk/__init__.py].  Client methods are embedded
    as computations in a state-and-exception monad over the client object
    and the part of the process it touches: environment variables, the log,
    the UTC clock, the transport handles and the requests sent. *)

From stdpp Require Import gmap strings list pretty.
From Stdlib Require Import ZArith Ascii.

Set Warnings "-register-all".
Open Scope Z_scope.
Open Scope string_scope.

(** ** Python values *)

(** The JSON-like values that travel through the client: query parameters,
    request bodies and parsed responses.  A [dict] is a finite map; a
    [float], on which the client never computes, is kept as its binary64 bit
    pattern. *)
Inductive pyval : Type :=
| VNone
| VBool (b : bool)
| VInt (n : Z)
| VFloat (bits : Z)
| VStr (s : string)
| VList (l : list pyval)
| VDict (d : gmap string pyval).

(** Python truthiness of the optional arguments the client tests with
    [if x:] and [x or y]. *)
Definition truthy_str (x : option string) : bool :=
  match x with
  | Some s => negb (String.eqb s "")
  | None => false
  end.

Definition truthy_dict (x : option (gmap string pyval)) : bool :=
  match x with
  | Some d => negb (bool_decide (d = ∅))
  | None => false
  end.

(** [a or b] on an optional string [a] and a string [b]. *)
Definition or_str (a : option string) (b : string) : string :=
  match a with
  | Some s => if truthy_str a then s else b
  | None => b
  end.

(** [str.rstrip('/')]: drop every trailing slash. *)
Fixpoint rstrip_slash (s : string) : string :=
  match s with
  | EmptyString => EmptyString
  | String c rest =>
      match rstrip_slash rest with
      | EmptyString => if Ascii.eqb c "/"%char then EmptyString else String c EmptyString
      | kept => String c kept
      end
  end.

(** ** Exceptions *)

(** The classes of [natureos_sdk/exceptions.py]: a base kind and four
    subclasses with an empty body. *)
Inductive natureos_kind : Type :=
| NatureOSError
| AuthenticationError
| NotFoundError
| RateLimitError
| ServerError.

(** The subclasses of [httpx.HTTPError]: [HTTPStatusError] is what
    [raise_for_status] raises, [RequestError] stands for the request-side
    family (ConnectError, ReadTimeout, ...) with its class name. *)
Inductive httpx_error : Type :=
| HTTPStatusError (status_code : Z) (url : string)
| RequestError (cls detail : string).

Inductive exn : Type :=
| HTTPError (e : httpx_error)
| BuiltinError (cls detail : string)
| SDKError (kind : natureos_kind) (message : string) (status_code : option Z).

(** [isinstance(e, httpx.HTTPError)], the test of every [except] clause of
    the client. *)
Definition is_HTTPError (e : exn) : bool :=
  match e with
  | HTTPError _ => true
  | _ => false
  end.

Definition is_SDKError (e : exn) : bool :=
  match e with
  | SDKError _ _ _ => true
  | _ => false
  end.

Inductive result (A : Type) : Type :=
| Return (a : A)
| Raise (e : exn).
Arguments Return {A} a.
Arguments Raise {A} e.

(** ** The client object and the process around it *)

Record NatureOSClient : Type := mkClient {
  config : gmap string pyval;
  api_url : string;
  api_key : string;
  tenant_id : string;
  timeout : Z;
  max_retries : Z;
  _http_client : option nat
}.

(** An [httpx.AsyncClient]: what it was built with, the environment it was
    built in ([trust_env] is left on, so the library takes its proxy and
    certificate settings from there), and whether [aclose] has run on it. *)
Record AsyncClient : Type := mkAsyncClient {
  base_url : string;
  headers : gmap string string;
  handle_timeout : Z;
  follow_redirects : bool;
  env_seen : gmap string string;
  is_closed : bool
}.

Inductive http_method : Type := GET | POST.

Record request : Type := mkRequest {
  method : http_method;
  path : string;
  params : gmap string pyval;
  json : option pyval
}.

(** A response: its status code and its body as parsed JSON ([None] when
    the body is not JSON, so that [response.json()] raises). *)
Record response : Type := mkResponse {
  status_code : Z;
  content : option pyval
}.

(** What the transport does with a request: a response of any status, a
    failure of the [httpx.RequestError] family, or an exception that is
    not an [httpx.HTTPError]. *)
Inductive net_outcome : Type :=
| Responded (r : response)
| RequestFailed (cls detail : string)
| Crashed (cls detail : string).

Inductive level : Type := INFO | ERROR.

(** A naive UTC [datetime], as its microsecond count. *)
Definition datetime : Type := Z.

(** [timedelta(hours=24)] *)
Definition timedelta_24h : Z := 24 * 3600 * 1000000.

(** The process, as far as one client touches it: [os.environ], the records
    of [logger], the number of clock readings made, every transport handle
    the client created so far (a handle is named by its position) and the
    requests sent, each with its handle. *)
Record process : Type := mkProcess {
  environ : gmap string string;
  log : list (level * string);
  clock_reads : nat;
  handles : list AsyncClient;
  sent : list (nat * request)
}.

Record state : Type := mkState {
  self : NatureOSClient;
  proc : process
}.

(** ** The state-and-exception monad of the methods *)

(** A Python exception leaves the mutations made before it in place, so a
    computation returns the state next to its result in both cases. *)
Definition M (A : Type) : Type := state -> result A * state.

#[global] Instance M_ret : MRet M := fun A a s => (Return a, s).

#[global] Instance M_bind : MBind M := fun A B k m s =>
  match m s with
  | (Return a, s') => k a s'
  | (Raise e, s') => (Raise e, s')
  end.

Definition raise {A : Type} (e : exn) : M A := fun s => (Raise e, s).

Definition get_self : M NatureOSClient := fun s => (Return (self s), s).

Definition set_http_client (h : option nat) : M unit := fun s =>
  let c := self s in
  (Return tt,
   mkState (mkClient (config c) (api_url c) (api_key c) (tenant_id c)
                     (timeout c) (max_retries c) h)
           (proc s)).

(** [logger.info] and [logger.error] *)
Definition logger (lv : level) (msg : string) : M unit := fun s =>
  let p := proc s in
  (Return tt,
   mkState (self s)
           (mkProcess (environ p) (log p ++ [(lv, msg)]) (clock_reads p)
                      (handles p) (sent p))).

(** [try: body / except httpx.HTTPError as e: handler e]: any other
    exception passes through. *)
Definition try_except_HTTPError {A : Type} (body : M A) (handler : exn -> M A)
  : M A := fun s =>
  match body s with
  | (Raise e, s') => if is_HTTPError e then handler e s' else (Raise e, s')
  | returned => returned
  end.

(** [200 <= status_code <= 299] *)
Definition is_success (r : response) : bool :=
  (200 <=? status_code r)%Z && (status_code r <=? 299)%Z.

(** [response.raise_for_status()] *)
Definition raise_for_status (url : string) (r : response) : M unit :=
  if is_success r then mret tt
  else raise (HTTPError (HTTPStatusError (status_code r) url)).

(** [response.json()]: the text of the decoding error depends on the body
    and is not modelled further. *)
Definition response_json (r : response) : M pyval :=
  match content r with
  | Some v => mret v
  | None => raise (BuiltinError "JSONDecodeError" "Expecting value")
  end.

(** [type(v).__name__] *)
Definition type_name (v : pyval) : string :=
  match v with
  | VNone => "NoneType"
  | VBool _ => "bool"
  | VInt _ => "int"
  | VFloat _ => "float"
  | VStr _ => "str"
  | VList _ => "list"
  | VDict _ => "dict"
  end.

(** What [v.get] raises when [v] has no such method. *)
Definition no_get (v : pyval) : exn :=
  BuiltinError "AttributeError" ("'" ++ type_name v ++ "' object has no attribute 'get'").

(** [data.get(key, default)]: only a dict has the method. *)
Definition data_get (data : pyval) (key : string) (default : pyval) : M pyval :=
  match data with
  | VDict d =>
      mret (match d !! key with Some v => v | None => default end)
  | _ => raise (no_get data)
  end.

(** [os.getenv(name, default)] *)
Definition getenv (env : gmap string string) (name default : string) : string :=
  match env !! name with
  | Some v => v
  | None => default
  end.

(** [httpx.AsyncClient(base_url=..., headers=..., timeout=...,
    follow_redirects=True)]: a new open handle, named by its position; it
    is built in the environment of the moment. *)
Definition new_AsyncClient (url : string) (hs : gmap string string) (t : Z)
    (redirects : bool) : M nat := fun s =>
  let p := proc s in
  (Return (length (handles p)),
   mkState (self s)
           (mkProcess (environ p) (log p) (clock_reads p)
                      (handles p ++ [mkAsyncClient url hs t redirects (environ p) false])
                      (sent p))).

(** [await handle.aclose()] *)
Definition aclose (h : nat) : M unit := fun s =>
  let p := proc s in
  (Return tt,
   mkState (self s)
           (mkProcess (environ p) (log p) (clock_reads p)
                      (alter (fun a => mkAsyncClient (base_url a) (headers a)
                                         (handle_timeout a) (follow_redirects a)
                                         (env_seen a) true)
                             h (handles p))
                      (sent p))).

Section Client.

(** The collaborators outside the repository: the remote side of the
    transport (what request number [n], sent through a given handle, meets),
    the UTC clock (its [n]-th reading), [datetime.isoformat] and [str] on
    an exception. *)
Variable net : nat -> AsyncClient -> request -> net_outcome.
Variable clock : nat -> datetime.
Variable isoformat : datetime -> string.
Variable exn_str : exn -> string.

(** [datetime.utcnow()] *)
Definition utcnow : M datetime := fun s =>
  let p := proc s in
  (Return (clock (clock_reads p)),
   mkState (self s)
           (mkProcess (environ p) (log p) (S (clock_reads p)) (handles p)
                      (sent p))).

(** [await client.get(...)] and [await client.post(...)]: a closed handle
    refuses to send; otherwise the request goes out and the transport
    decides.  Positions come from [new_AsyncClient] only, so the last case
    (a position that names no handle) is there for totality. *)
Definition send (h : nat) (req : request) : M response := fun s =>
  let p := proc s in
  match handles p !! h with
  | Some a =>
      if is_closed a
      then (Raise (BuiltinError "RuntimeError"
                     "Cannot send a request, as the client has been closed."), s)
      else
        let s' := mkState (self s)
                    (mkProcess (environ p) (log p) (clock_reads p) (handles p)
                               (sent p ++ [(h, req)])) in
        match net (length (sent p)) a req with
        | Responded r => (Return r, s')
        | RequestFailed cls detail => (Raise (HTTPError (RequestError cls detail)), s')
        | Crashed cls detail => (Raise (BuiltinError cls detail), s')
        end
  | None => (Raise (BuiltinError "ReferenceError" "no such handle"), s)
  end.

(** ** [NatureOSClient] *)

(** [_get_http_client]: the handle is built on the first use only. *)
Definition _get_http_client : M nat :=
  c ← get_self;
  match _http_client c with
  | None =>
      let hs : gmap string string :=
        {[ "Content-Type" := "application/json"; "Accept" := "application/json" ]} in
      let hs := if truthy_str (Some (api_key c))
                then <[ "Authorization" := "Bearer " ++ api_key c ]> hs else hs in
      let hs := if truthy_str (Some (tenant_id c))
                then <[ "X-Tenant-ID" := tenant_id c ]> hs else hs in
      h ← new_AsyncClient (api_url c) hs (timeout c) true;
      set_http_client (Some h);;
      mret h
  | Some h => mret h
  end.

(** The query of [list_devices]: a filter is added under [if filter:]. *)
Definition list_devices_params (device_type status : option string) (limit : Z)
  : gmap string pyval :=
  let ps : gmap string pyval := {[ "limit" := VInt limit ]} in
  let ps := match device_type with
            | Some v => if truthy_str device_type then <[ "device_type" := VStr v ]> ps else ps
            | None => ps
            end in
  match status with
  | Some v => if truthy_str status then <[ "status" := VStr v ]> ps else ps
  | None => ps
  end.

Definition list_devices (device_type status : option string) (limit : Z) : M pyval :=
  try_except_HTTPError
    (client ← _get_http_client;
     let ps := list_devices_params device_type status limit in
     resp ← send client (mkRequest GET "/devices" ps None);
     raise_for_status "/devices" resp;;
     data ← response_json resp;
     data_get data "items" (VList []))
    (fun e => logger ERROR ("Error listing devices: " ++ exn_str e);; raise e).

Definition get_device (device_id : string) : M pyval :=
  try_except_HTTPError
    (client ← _get_http_client;
     let url := "/devices/" ++ device_id in
     resp ← send client (mkRequest GET url ∅ None);
     raise_for_status url resp;;
     response_json resp)
    (fun e => logger ERROR (("Error getting device " ++ device_id ++ ": ") ++ exn_str e);;
              raise e).

(** The POST body of [register_device]. *)
Definition register_device_payload (device_id name device_type : string)
    (location metadata : option (gmap string pyval)) : gmap string pyval :=
  let payload : gmap string pyval :=
    {[ "device_id" := VStr device_id; "name" := VStr name;
       "device_type" := VStr device_type ]} in
  let payload := match location with
                 | Some d => if truthy_dict location
                             then <[ "location" := VDict d ]> payload else payload
                 | None => payload
                 end in
  match metadata with
  | Some d => if truthy_dict metadata
              then <[ "metadata" := VDict d ]> payload else payload
  | None => payload
  end.

Definition register_device (device_id name device_type : string)
    (location metadata : option (gmap string pyval)) : M pyval :=
  try_except_HTTPError
    (client ← _get_http_client;
     let payload := register_device_payload device_id name device_type location metadata in
     resp ← send client (mkRequest POST "/devices/register" ∅ (Some (VDict payload)));
     raise_for_status "/devices/register" resp;;
     logger INFO ("Registered device: " ++ device_id);;
     response_json resp)
    (fun e => logger ERROR ("Error registering device: " ++ exn_str e);; raise e).

(** [get_sensor_data]: a [datetime] is always truthy, so [if start_time:]
    tests that a bound was passed; a missing bound reads the clock, the
    start first. *)
Definition get_sensor_data (device_id : string) (sensor_type : option string)
    (start_time end_time : option datetime) (limit : Z) : M pyval :=
  try_except_HTTPError
    (client ← _get_http_client;
     let ps : gmap string pyval := {[ "limit" := VInt limit ]} in
     let ps := match sensor_type with
               | Some v => if truthy_str sensor_type
                           then <[ "sensor_type" := VStr v ]> ps else ps
               | None => ps
               end in
     ps ← match start_time with
          | Some t => mret (<[ "start_time" := VStr (isoformat t) ]> ps)
          | None => now ← utcnow;
                    mret (<[ "start_time" := VStr (isoformat (now - timedelta_24h)) ]> ps)
          end;
     ps ← match end_time with
          | Some t => mret (<[ "end_time" := VStr (isoformat t) ]> ps)
          | None => now ← utcnow;
                    mret (<[ "end_time" := VStr (isoformat now) ]> ps)
          end;
     let url := "/devices/" ++ device_id ++ "/sensor-data" in
     resp ← send client (mkRequest GET url ps None);
     raise_for_status url resp;;
     data ← response_json resp;
     data_get data "items" (VList []))
    (fun e => logger ERROR ("Error getting sensor data: " ++ exn_str e);; raise e).

Definition send_command (device_id command_type : string)
    (parameters : gmap string pyval) : M pyval :=
  try_except_HTTPError
    (client ← _get_http_client;
     let payload : gmap string pyval :=
       {[ "command_type" := VStr command_type; "parameters" := VDict parameters ]} in
     let url := "/devices/" ++ device_id ++ "/commands" in
     resp ← send client (mkRequest POST url ∅ (Some (VDict payload)));
     raise_for_status url resp;;
     logger INFO ("Sent command " ++ command_type ++ " to device " ++ device_id);;
     response_json resp)
    (fun e => logger ERROR ("Error sending command: " ++ exn_str e);; raise e).

(** The metadata of [register_mycobrain_device]: the three entries first,
    then [device_metadata.update(metadata)] under [if metadata:]; [update]
    lets the entries of its argument win. *)
Definition mycobrain_metadata (serial_number firmware_version : string)
    (metadata : option (gmap string pyval)) : gmap string pyval :=
  let device_metadata : gmap string pyval :=
    {[ "serial_number" := VStr serial_number;
       "firmware_version" := VStr firmware_version;
       "device_type" := VStr "mycobrain" ]} in
  match metadata with
  | Some d => if truthy_dict metadata then d ∪ device_metadata else device_metadata
  | None => device_metadata
  end.

Definition register_mycobrain_device (device_id serial_number name firmware_version : string)
    (location metadata : option (gmap string pyval)) : M pyval :=
  register_device device_id name "mycobrain" location
    (Some (mycobrain_metadata serial_number firmware_version metadata)).

(** [close]: an [AsyncClient] object is always truthy, so the test is on
    the reference being set. *)
Definition close : M unit :=
  c ← get_self;
  match _http_client c with
  | Some h => aclose h;; set_http_client None
  | None => mret tt
  end.

Definition __aenter__ : M unit := mret tt.

Definition __aexit__ : M unit := close.

(** The public operations, as one type, and their dispatch. *)
Inductive call : Type :=
| ListDevices (device_type status : option string) (limit : Z)
| GetDevice (device_id : string)
| RegisterDevice (device_id name device_type : string)
    (location metadata : option (gmap string pyval))
| GetSensorData (device_id : string) (sensor_type : option string)
    (start_time end_time : option datetime) (limit : Z)
| SendCommand (device_id command_type : string) (parameters : gmap string pyval)
| RegisterMycobrainDevice (device_id serial_number name firmware_version : string)
    (location metadata : option (gmap string pyval))
| Close.

Definition run (c : call) : M pyval :=
  match c with
  | ListDevices t st l => list_devices t st l
  | GetDevice d => get_device d
  | RegisterDevice d n t loc md => register_device d n t loc md
  | GetSensorData d st a b l => get_sensor_data d st a b l
  | SendCommand d t ps => send_command d t ps
  | RegisterMycobrainDevice d sn n fw loc md => register_mycobrain_device d sn n fw loc md
  | Close => close;; mret VNone
  end.

End Client.

(** [NatureOSClient.__init__]: reads the environment, stores the
    attributes, logs one record; no handle is made. *)
Definition __init__ (api_url' api_key' tenant_id' : option string)
    (timeout' max_retries' : Z) (config' : option (gmap string pyval))
    (p : process) : state :=
  let c :=
    mkClient
      (match config' with
       | Some d => if truthy_dict config' then d else ∅
       | None => ∅
       end)
      (rstrip_slash (or_str api_url' (getenv (environ p) "NATUREOS_API_URL" "http://localhost:8002")))
      (or_str api_key' (getenv (environ p) "NATUREOS_API_KEY" ""))
      (or_str tenant_id' (getenv (environ p) "NATUREOS_TENANT_ID" ""))
      timeout' max_retries' None in
  mkState c
    (mkProcess (environ p)
               (log p ++ [(INFO, "NatureOS client initialized - API: " ++ api_url c)])
               (clock_reads p) (handles p) (sent p)).

(** ** Module evaluation *)

(** Importing the package runs the top-level statements of its modules.
    What matters at that level is which names are bound when a name is
    looked up: a statement either binds names or raises [NameError].  The
    three modules are written below statement by statement. *)
Module PyLoad.

(** Names every module sees without importing them. *)
Definition builtins : gset string :=
  {[ "Exception"; "str"; "int"; "float"; "bool"; "dict"; "list" ]}.

(** The names bound so far: the module globals and, inside a class body,
    the class namespace. *)
Record frame : Type := mkFrame {
  globals : gset string;
  class_locals : option (gset string)
}.

Definition L (A : Type) : Type := frame -> result A * frame.

#[global] Instance L_ret : MRet L := fun A a f => (Return a, f).

#[global] Instance L_bind : MBind L := fun A B k m f =>
  match m f with
  | (Return a, f') => k a f'
  | (Raise e, f') => (Raise e, f')
  end.

(** The module namespace at the start of its evaluation. *)
Definition fresh : frame := mkFrame {[ "__name__"; "__doc__" ]} None.

Definition name_error (x : string) : exn :=
  BuiltinError "NameError" ("name '" ++ x ++ "' is not defined").

(** Evaluating a name: class namespace, then globals, then builtins. *)
Definition lookup_name (x : string) : L unit := fun f =>
  if bool_decide (x ∈ default ∅ (class_locals f) ∪ globals f ∪ builtins)
  then (Return tt, f)
  else (Raise (name_error x), f).

(** Evaluating an expression, given the names it mentions in order. *)
Fixpoint eval_names (xs : list string) : L unit :=
  match xs with
  | [] => mret tt
  | x :: rest => lookup_name x;; eval_names rest
  end.

(** Binding a name in the innermost namespace. *)
Definition bind_name (x : string) : L unit := fun f =>
  (Return tt,
   match class_locals f with
   | Some ls => mkFrame (globals f) (Some ({[ x ]} ∪ ls))
   | None => mkFrame ({[ x ]} ∪ globals f) None
   end).

Fixpoint bind_names (xs : list string) : L unit :=
  match xs with
  | [] => mret tt
  | x :: rest => bind_name x;; bind_names rest
  end.

(** [x = expr] *)
Definition assign (x : string) (expr : list string) : L unit :=
  eval_names expr;; bind_name x.

(** [def f(...)] or [async def f(...)]: with eager annotations (every
    interpreter before deferred evaluation became the default, no
    [from __future__ import annotations] in the file) each annotation is
    evaluated when the [def] statement runs; the body is not. *)
Definition def_ (eager : bool) (f : string) (annotations : list (list string))
  : L unit :=
  (if eager then eval_names (concat annotations) else mret tt);;
  bind_name f.

(** [class C(bases): body] *)
Definition class_ (c : string) (bases : list string) (body : L unit) : L unit :=
  eval_names bases;;
  (fun f => (Return tt, mkFrame (globals f) (Some ∅)));;
  body;;
  (fun f => (Return tt, mkFrame (globals f) None));;
  bind_name c.

(** [import m] of a module from outside the repository. *)
Definition import_ (m : string) : L unit := bind_name m.

(** [from m import a, b] of a module from outside the repository. *)
Definition from_import (xs : list string) : L unit := bind_names xs.

(** [from m import a, b] of a module of the repository: its body runs
    first, in a namespace of its own; its exception, if any, is the
    exception of the import statement. *)
Definition from_module_import (body : L unit) (xs : list string) : L unit := fun f =>
  match body fresh with
  | (Return _, g) =>
      match find (fun x => negb (bool_decide (x ∈ globals g))) xs with
      | Some x => (Raise (BuiltinError "ImportError" ("cannot import name '" ++ x ++ "'")), f)
      | None => bind_names xs f
      end
  | (Raise e, _) => (Raise e, f)
  end.

Definition class_name (k : natureos_kind) : string :=
  match k with
  | NatureOSError => "NatureOSError"
  | AuthenticationError => "AuthenticationError"
  | NotFoundError => "NotFoundError"
  | RateLimitError => "RateLimitError"
  | ServerError => "ServerError"
  end.

(** [natureos_sdk/exceptions.py]: no import statement, five classes. *)
Definition exceptions_module (eager : bool) : L unit :=
  class_ "NatureOSError" ["Exception"]
    (def_ eager "__init__" [["str"]; ["Optional"; "int"]]);;
  class_ "AuthenticationError" ["NatureOSError"] (mret tt);;
  class_ "NotFoundError" ["NatureOSError"] (mret tt);;
  class_ "RateLimitError" ["NatureOSError"] (mret tt);;
  class_ "ServerError" ["NatureOSError"] (mret tt).

(** [natureos_sdk/client.py]: its imports, [logger], and the signatures of
    the methods of [NatureOSClient]. *)
Definition client_module (eager : bool) : L unit :=
  import_ "os";;
  import_ "logging";;
  from_import ["Dict"; "Any"; "Optional"; "List"];;
  from_import ["datetime"; "timedelta"];;
  import_ "httpx";;
  assign "logger" ["logging"; "__name__"];;
  class_ "NatureOSClient" []
    (def_ eager "__init__"
       [["Optional"; "str"]; ["Optional"; "str"]; ["Optional"; "str"]; ["int"]; ["int"];
        ["Optional"; "Dict"; "str"; "Any"]];;
     def_ eager "_get_http_client" [["httpx"]];;
     def_ eager "list_devices"
       [["Optional"; "str"]; ["Optional"; "str"]; ["int"]; ["List"; "Dict"; "str"; "Any"]];;
     def_ eager "get_device" [["str"]; ["Dict"; "str"; "Any"]];;
     def_ eager "register_device"
       [["str"]; ["str"]; ["str"]; ["Optional"; "Dict"; "str"; "Any"];
        ["Optional"; "Dict"; "str"; "Any"]; ["Dict"; "str"; "Any"]];;
     def_ eager "get_sensor_data"
       [["str"]; ["Optional"; "str"]; ["Optional"; "datetime"]; ["Optional"; "datetime"];
        ["int"]; ["List"; "Dict"; "str"; "Any"]];;
     def_ eager "send_command"
       [["str"]; ["str"]; ["Dict"; "str"; "Any"]; ["Dict"; "str"; "Any"]];;
     def_ eager "register_mycobrain_device"
       [["str"]; ["str"]; ["str"]; ["str"]; ["Optional"; "Dict"; "str"; "float"];
        ["Optional"; "Dict"; "str"; "Any"]; ["Dict"; "str"; "Any"]];;
     def_ eager "close" [];;
     def_ eager "__aenter__" [];;
     def_ eager "__aexit__" []).

(** [natureos_sdk/__init__.py] *)
Definition package_init (eager : bool) : L unit :=
  assign "__version__" [];;
  from_module_import (client_module eager) ["NatureOSClient"];;
  from_module_import (exceptions_module eager) ["NatureOSError"];;
  assign "__all__" [].

End PyLoad.

(** ** Notions used to state the properties *)

(** [n] slashes. *)
Fixpoint slashes (n : nat) : string :=
  match n with
  | O => EmptyString
  | S k => String "/"%char (slashes k)
  end.

(** The positions of the handles that are open, from position [i] on. *)
Fixpoint open_from (i : nat) (hs : list AsyncClient) : list nat :=
  match hs with
  | [] => []
  | a :: rest => (if is_closed a then [] else [i]) ++ open_from (S i) rest
  end.

Definition open_handles (p : process) : list nat := open_from 0 (handles p).

(** The open handles are exactly the one the client refers to, if any. *)
Definition one_handle (s : state) : Prop :=
  open_handles (proc s) = option_list (_http_client (self s)).

(** What [_get_http_client] does in a state where the invariant holds:
    [acquired s h a s1] relates the state before to the handle and the state
    after. *)
Definition acquired (s : state) (h : nat) (a : AsyncClient) (s1 : state) : Prop :=
  handles (proc s1) !! h = Some a ∧ is_closed a = false
  ∧ _http_client (self s1) = Some h
  ∧ one_handle s1
  ∧ environ (proc s1) = environ (proc s) ∧ log (proc s1) = log (proc s)
  ∧ clock_reads (proc s1) = clock_reads (proc s) ∧ sent (proc s1) = sent (proc s)
  ∧ match _http_client (self s) with
    | Some h0 => h = h0 ∧ s1 = s
    | None => h = length (handles (proc s))
              ∧ handles (proc s1) = (handles (proc s) ++ [a])%list
              ∧ base_url a = api_url (self s)
              ∧ handle_timeout a = timeout (self s)
    end.

(** The same state with another [max_retries]. *)
Definition with_max_retries (k : Z) (s : state) : state :=
  let c := self s in
  mkState (mkClient (config c) (api_url c) (api_key c) (tenant_id c) (timeout c) k
                    (_http_client c))
          (proc s).

(** The state after the calls [cs], made one after the other. *)
Definition run_all (net : nat -> AsyncClient -> request -> net_outcome)
    (clock : nat -> datetime) (isoformat : datetime -> string)
    (exn_str : exn -> string) (cs : list call) (s : state) : state :=
  foldl (fun st c => snd (run net clock isoformat exn_str c st)) s cs.

(** *** The common shape of the six network operations

    Each of them acquires the handle, builds one request (reading the clock
    [reads] times), sends it, checks the status, and finishes on the
    response; each has the same [except] clause but for the text of the
    record.  [op_model] runs that shape; the operations are proved equal to
    it below, so that what holds of the shape holds of each of them. *)

Record shape : Type := mkShape {
  mk : nat -> request;
  reads : nat;
  info : list (level * string);
  fin : response -> result pyval;
  prefix : string
}.

Definition tick (n : nat) (s : state) : state :=
  let p := proc s in
  mkState (self s)
    (mkProcess (environ p) (log p) (n + clock_reads p) (handles p) (sent p)).

Definition sent_one (h : nat) (req : request) (s : state) : state :=
  let p := proc s in
  mkState (self s)
    (mkProcess (environ p) (log p) (clock_reads p) (handles p) (sent p ++ [(h, req)])).

Definition add_logs (rs : list (level * string)) (s : state) : state :=
  let p := proc s in
  mkState (self s)
    (mkProcess (environ p) (log p ++ rs) (clock_reads p) (handles p) (sent p)).

Definition fin_json (r : response) : result pyval :=
  match content r with
  | Some v => Return v
  | None => Raise (BuiltinError "JSONDecodeError" "Expecting value")
  end.

Definition fin_items (r : response) : result pyval :=
  match content r with
  | Some (VDict d) => Return (default (VList []) (d !! "items"))
  | Some v => Raise (no_get v)
  | None => Raise (BuiltinError "JSONDecodeError" "Expecting value")
  end.

Section Shape.

Variable net : nat -> AsyncClient -> request -> net_outcome.
Variable clock : nat -> datetime.
Variable isoformat : datetime -> string.
Variable exn_str : exn -> string.

Definition op_model (sh : shape) : M pyval := fun s =>
  match _get_http_client s with
  | (Return h, s1) =>
      let req := mk sh (clock_reads (proc s1)) in
      let s2 := tick (reads sh) s1 in
      match handles (proc s2) !! h with
      | Some a =>
          if is_closed a
          then (Raise (BuiltinError "RuntimeError"
                         "Cannot send a request, as the client has been closed."), s2)
          else
            let s3 := sent_one h req s2 in
            let failed e := (Raise e, add_logs [(ERROR, prefix sh ++ exn_str e)] s3) in
            match net (length (sent (proc s2))) a req with
            | Responded r =>
                if is_success r then (fin sh r, add_logs (info sh) s3)
                else failed (HTTPError (HTTPStatusError (status_code r) (path req)))
            | RequestFailed cls detail => failed (HTTPError (RequestError cls detail))
            | Crashed cls detail => (Raise (BuiltinError cls detail), s3)
            end
      | None => (Raise (BuiltinError "ReferenceError" "no such handle"), s2)
      end
  | (Raise e, s1) => (Raise e, s1)
  end.

(** The bounds of the window of [get_sensor_data], given the number of
    clock readings made before the call. *)
Definition window_start (start_time : option datetime) (n : nat) : datetime :=
  match start_time with
  | Some t => t
  | None => clock n - timedelta_24h
  end.

Definition window_end (start_time end_time : option datetime) (n : nat) : datetime :=
  match end_time with
  | Some t => t
  | None => clock (match start_time with Some _ => n | None => S n end)
  end.

Definition sensor_params (sensor_type : option string) (start_time end_time : option datetime)
    (limit : Z) (n : nat) : gmap string pyval :=
  let ps : gmap string pyval := {[ "limit" := VInt limit ]} in
  let ps := match sensor_type with
            | Some v => if truthy_str sensor_type
                        then <[ "sensor_type" := VStr v ]> ps else ps
            | None => ps
            end in
  <[ "end_time" := VStr (isoformat (window_end start_time end_time n)) ]>
    (<[ "start_time" := VStr (isoformat (window_start start_time n)) ]> ps).

Definition shape_of (c : call) : shape :=
  match c with
  | ListDevices t st l =>
      mkShape (fun _ => mkRequest GET "/devices" (list_devices_params t st l) None)
              0 [] fin_items "Error listing devices: "
  | GetDevice d =>
      mkShape (fun _ => mkRequest GET ("/devices/" ++ d) ∅ None)
              0 [] fin_json ("Error getting device " ++ d ++ ": ")
  | RegisterDevice d n t loc md =>
      mkShape (fun _ => mkRequest POST "/devices/register" ∅
                          (Some (VDict (register_device_payload d n t loc md))))
              0 [(INFO, "Registered device: " ++ d)] fin_json
              "Error registering device: "
  | GetSensorData d st a b l =>
      mkShape (fun n => mkRequest GET ("/devices/" ++ d ++ "/sensor-data")
                          (sensor_params st a b l n) None)
              (match a with Some _ => 0 | None => 1 end
               + match b with Some _ => 0 | None => 1 end)
              [] fin_items "Error getting sensor data: "
  | SendCommand d t ps =>
      mkShape (fun _ => mkRequest POST ("/devices/" ++ d ++ "/commands") ∅
                          (Some (VDict {[ "command_type" := VStr t;
                                          "parameters" := VDict ps ]})))
              0 [(INFO, "Sent command " ++ t ++ " to device " ++ d)] fin_json
              "Error sending command: "
  | RegisterMycobrainDevice d sn n fw loc md =>
      mkShape (fun _ => mkRequest POST "/devices/register" ∅
                          (Some (VDict (register_device_payload d n "mycobrain" loc
                                          (Some (mycobrain_metadata sn fw md))))))
              0 [(INFO, "Registered device: " ++ d)] fin_json
              "Error registering device: "
  | Close => mkShape (fun _ => mkRequest GET "" ∅ None) 0 [] fin_json ""
  end.
(* [Close] sends nothing: its entry is a placeholder, and every statement
   about [shape_of] excludes it. *)

End Shape.

(** *** Concrete collaborators, for the examples *)

Definition demo_process : process := mkProcess ∅ [] 0 [] [].

(** A client built with no argument in an empty environment. *)
Definition demo_state : state := __init__ None None None 30 3 None demo_process.

(** A server that answers every request with status 500 and no body. *)
Definition net_500 (n : nat) (a : AsyncClient) (req : request) : net_outcome :=
  Responded (mkResponse 500 None).

(** A server that answers every request with status 200 and an empty JSON
    object. *)
Definition net_200 (n : nat) (a : AsyncClient) (req : request) : net_outcome :=
  Responded (mkResponse 200 (Some (VDict ∅))).


(** A clock that advances by one second between two readings. *)
Definition demo_clock (n : nat) : datetime := Z.of_nat n * 1000000.

(** A rendering of a time that tells any two times apart. *)
Definition demo_isoformat (t : datetime) : string := pretty t.

Definition demo_exn_str (e : exn) : string :=
  match e with
  | HTTPError (HTTPStatusError code url) => "status " ++ pretty code ++ " for url " ++ url
  | HTTPError (RequestError cls detail) => detail
  | BuiltinError cls detail => detail
  | SDKError _ message _ => message
  end.

(** A server that answers every request with status 200 and a body that
    is not JSON. *)
Definition net_200_text (n : nat) (a : AsyncClient) (req : request) : net_outcome :=
  Responded (mkResponse 200 None).

(** A transport that raises [httpx.InvalidURL], which is not an
    [httpx.HTTPError], on every request. *)
Definition net_invalid_url (n : nat) (a : AsyncClient) (req : request) : net_outcome :=
  Crashed "InvalidURL" "No scheme included in URL.".

(** The state after one successful operation of a fresh client: it holds a
    handle. *)
Definition demo_connected : state :=
  snd (run net_200 demo_clock demo_isoformat demo_exn_str (GetDevice "dev-1") demo_state).

(** Metadata in which a caller sets keys of its own choice. *)
Definition demo_caller_metadata : gmap string pyval :=
  {[ "device_type" := VStr "custom"; "serial_number" := VStr "FAKE" ]}.

Definition demo_site_metadata : gmap string pyval := {[ "site" := VStr "lab" ]}.

(** *** Changing attributes of the client *)

(** The same state with another [config] attribute. *)
Definition with_config (cfg : gmap string pyval) (s : state) : state :=
  let c := self s in
  mkState (mkClient cfg (api_url c) (api_key c) (tenant_id c) (timeout c)
                    (max_retries c) (_http_client c))
          (proc s).

(** The same state with other [api_url], [api_key], [tenant_id] and
    [timeout] attributes. *)
Definition with_settings (url key tenant : string) (t : Z) (s : state) : state :=
  let c := self s in
  mkState (mkClient (config c) url key tenant t (max_retries c) (_http_client c))
          (proc s).

(** The operations that go to the network: all but [close]. *)
Definition is_network_call (c : call) : bool :=
  match c with
  | Close => false
  | _ => true
  end.

(** * Properties *)

(** ** Strings *)

#[local] Arguments String.append !_ _ / : simpl nomatch.

Lemma append_slash_nonempty (w : string) : w ++ "/" ≠ "".
Proof. destruct w; discriminate. Qed.

Lemma rstrip_slash_no_trailing (s w : string) : rstrip_slash s ≠ w ++ "/".
Proof.
  revert w. induction s as [|c rest IH]; intros w; simpl.
  - intros H. symmetry in H. exact (append_slash_nonempty w H).
  - destruct (rstrip_slash rest) as [|k ks] eqn:E.
    + destruct (Ascii.eqb_spec c "/"%char) as [->|Hc].
      * intros H. symmetry in H. exact (append_slash_nonempty w H).
      * destruct w as [|c' w']; simpl; intros H.
        -- congruence.
        -- assert (H2 : "" = w' ++ "/") by congruence.
           symmetry in H2. exact (append_slash_nonempty w' H2).
    + destruct w as [|c' w']; simpl; intros H.
      * discriminate.
      * apply (IH w'). congruence.
Qed.

Lemma rstrip_slash_suffix (s : string) : ∃ n, s = rstrip_slash s ++ slashes n.
Proof.
  induction s as [|c rest [n IH]]; simpl.
  - exists 0%nat. reflexivity.
  - destruct (rstrip_slash rest) as [|k ks] eqn:E.
    + destruct (Ascii.eqb_spec c "/"%char) as [->|Hc].
      * exists (S n). simpl in *. by rewrite <- IH.
      * exists n. simpl in *. by rewrite <- IH.
    + exists n. simpl in *. by rewrite <- IH.
Qed.

Lemma or_str_None (b : string) : or_str None b = b.
Proof. reflexivity. Qed.

Lemma or_str_empty (b : string) : or_str (Some "") b = b.
Proof. reflexivity. Qed.

Lemma or_str_nonempty (a b : string) : a ≠ "" → or_str (Some a) b = a.
Proof.
  intros H. unfold or_str, truthy_str.
  destruct (String.eqb_spec a ""); [contradiction | reflexivity].
Qed.

(** ** Construction *)

(** C8. An argument of the constructor that is not passed is read from its
    environment variable, and the literal default ([http://localhost:8002],
    the empty string) is used when the variable is not set; a non-empty URL
    that is passed is the one used; the stored URL is the URL used with
    every trailing slash removed: it ends with no slash, and what was
    removed is slashes only. *)
Theorem init_environment_defaults_and_rstrip :
  ∀ (p : process) (t r : Z) (cfg : option (gmap string pyval)),
    (∀ k tn, api_url (self (__init__ None k tn t r cfg p))
             = rstrip_slash (default "http://localhost:8002"
                                     (environ p !! "NATUREOS_API_URL")))
    ∧ (∀ u tn, api_key (self (__init__ u None tn t r cfg p))
               = default "" (environ p !! "NATUREOS_API_KEY"))
    ∧ (∀ u k, tenant_id (self (__init__ u k None t r cfg p))
              = default "" (environ p !! "NATUREOS_TENANT_ID"))
    ∧ (∀ k tn, environ p !! "NATUREOS_API_URL" = None →
               api_url (self (__init__ None k tn t r cfg p)) = "http://localhost:8002")
    ∧ (∀ u k tn, u ≠ "" →
                 api_url (self (__init__ (Some u) k tn t r cfg p)) = rstrip_slash u)
    ∧ (∀ u k tn w, api_url (self (__init__ u k tn t r cfg p)) ≠ w ++ "/")
    ∧ (∀ u : string, ∃ n, u = rstrip_slash u ++ slashes n).
Proof.
  intros p t r cfg. split_and!.
  - intros k tn. simpl. unfold getenv.
    by destruct (environ p !! "NATUREOS_API_URL").
  - intros u tn. simpl. unfold getenv.
    by destruct (environ p !! "NATUREOS_API_KEY").
  - intros u k. simpl. unfold getenv.
    by destruct (environ p !! "NATUREOS_TENANT_ID").
  - intros k tn Henv. simpl. unfold getenv. by rewrite Henv.
  - intros u k tn Hu. change (api_url (self (__init__ (Some u) k tn t r cfg p)))
      with (rstrip_slash (or_str (Some u)
              (getenv (environ p) "NATUREOS_API_URL" "http://localhost:8002"))).
    by rewrite or_str_nonempty.
  - intros u k tn w. simpl. apply rstrip_slash_no_trailing.
  - intros u. apply rstrip_slash_suffix.
Qed.

Lemma init_environment_defaults_and_rstrip_witness :
  api_url (self (__init__ (Some "https://api.example.org///") None None 30 3 None
                          (mkProcess ∅ [] 0 [] [])))
  = "https://api.example.org".
Proof.
  pose proof (init_environment_defaults_and_rstrip (mkProcess ∅ [] 0 [] []) 30 3 None)
    as (_ & _ & _ & _ & H & _).
  rewrite (H "https://api.example.org///" None None); [reflexivity | discriminate].
Defined.

(** ** Open handles *)

Lemma open_from_app (i : nat) (l1 l2 : list AsyncClient) :
  open_from i (l1 ++ l2) = (open_from i l1 ++ open_from (i + length l1) l2)%list.
Proof.
  revert i. induction l1 as [|a l1 IH]; intros i; simpl.
  - by rewrite Nat.add_0_r.
  - rewrite IH, <- app_assoc.
    by replace (S i + length l1)%nat with (i + S (length l1))%nat by lia.
Qed.

Lemma open_from_ge (i h : nat) (hs : list AsyncClient) :
  h ∈ open_from i hs → (i ≤ h)%nat.
Proof.
  revert i. induction hs as [|a hs IH]; intros i; simpl.
  - by intros ?%elem_of_nil.
  - rewrite elem_of_app. intros [H|H].
    + destruct (is_closed a); [by apply elem_of_nil in H|].
      apply list_elem_of_singleton in H. lia.
    + apply IH in H. lia.
Qed.

Lemma open_from_lookup (i h : nat) (hs : list AsyncClient) :
  h ∈ open_from i hs →
  ∃ a, hs !! (h - i)%nat = Some a ∧ is_closed a = false.
Proof.
  revert i. induction hs as [|a hs IH]; intros i; simpl.
  - by intros ?%elem_of_nil.
  - rewrite elem_of_app. intros [H|H].
    + destruct (is_closed a) eqn:E; [by apply elem_of_nil in H|].
      apply list_elem_of_singleton in H. subst h. rewrite Nat.sub_diag. eauto.
    + pose proof (open_from_ge _ _ _ H) as Hge.
      destruct (IH _ H) as (b & Hb & Hc). exists b. split; [|done].
      by replace (h - i)%nat with (S (h - S i)) by lia.
Qed.

Lemma open_from_close (i h : nat) (hs : list AsyncClient) :
  open_from i hs = [h] →
  open_from i (alter (fun a => mkAsyncClient (base_url a) (headers a) (handle_timeout a)
                                 (follow_redirects a) (env_seen a) true)
                     (h - i)%nat hs) = [].
Proof.
  revert i. induction hs as [|a hs IH]; intros i; simpl; [done|].
  destruct (is_closed a) eqn:E; simpl; intros H.
  - assert (S i ≤ h)%nat as Hge by (apply (open_from_ge _ _ hs); rewrite H; left).
    replace (h - i)%nat with (S (h - S i)) by lia. simpl. rewrite E. simpl.
    by apply IH.
  - injection H as -> H. rewrite Nat.sub_diag. simpl. done.
Qed.

Lemma one_handle_lookup (s : state) (h : nat) :
  one_handle s → _http_client (self s) = Some h →
  ∃ a, handles (proc s) !! h = Some a ∧ is_closed a = false.
Proof.
  unfold one_handle, open_handles. intros Hinv Hh. rewrite Hh in Hinv. simpl in Hinv.
  assert (h ∈ open_from 0 (handles (proc s))) as Hin by (rewrite Hinv; left).
  apply open_from_lookup in Hin. by rewrite Nat.sub_0_r in Hin.
Qed.

Lemma get_http_client_spec (s : state) :
  one_handle s →
  ∃ h a s1, _get_http_client s = (Return h, s1) ∧ acquired s h a s1.
Proof.
  intros Hinv. unfold acquired, _get_http_client, mbind, M_bind, get_self.
  destruct (_http_client (self s)) as [h|] eqn:Hh; simpl.
  - destruct (one_handle_lookup s h Hinv Hh) as (a & Ha & Hc).
    exists h, a, s. by rewrite Hh.
  - eexists _, _, _. split; [reflexivity|]. simpl.
    unfold one_handle, open_handles in *. rewrite Hh in Hinv. simpl in *.
    rewrite lookup_app_r, Nat.sub_diag by lia. simpl.
    rewrite open_from_app, Hinv. simpl. split_and!; done.
Qed.

(** ** The operations follow the common shape *)

Section Properties.

Variable net : nat -> AsyncClient -> request -> net_outcome.
Variable clock : nat -> datetime.
Variable isoformat : datetime -> string.
Variable exn_str : exn -> string.

Abbreviation run' := (run net clock isoformat exn_str).
Abbreviation op_model' := (op_model net exn_str).
Abbreviation shape_of' := (shape_of clock isoformat).

Lemma get_http_client_returns (s : state) :
  ∃ h s1, _get_http_client s = (Return h, s1).
Proof.
  unfold _get_http_client, mbind, M_bind, get_self.
  destruct (_http_client (self s)); simpl; eauto.
Qed.

Ltac exec :=
  unfold send, raise_for_status, response_json, data_get, logger, utcnow, raise;
  simpl;
  unfold fin_items, fin_json, add_logs, sent_one, tick, sensor_params, window_start,
    window_end;
  repeat first
    [ progress simpl
    | match goal with
      | |- context [match ?l !! ?h with _ => _ end] => destruct (l !! h) eqn:?
      | |- context [if is_closed ?a then _ else _] => destruct (is_closed a) eqn:?
      | |- context [match net ?n ?a ?r with _ => _ end] => destruct (net n a r) eqn:?
      | |- context [if is_success ?r then _ else _] => destruct (is_success r) eqn:?
      | |- context [match content ?r with _ => _ end] =>
          destruct (content r) as [[]|] eqn:?
      end ];
  rewrite ?app_nil_r; try reflexivity.

Lemma run_shape (c : call) (s : state) :
  c ≠ Close → run' c s = op_model' (shape_of' c) s.
Proof.
  intros Hc. destruct (get_http_client_returns s) as (h & [cl [env lg cr hs snt]] & Hget).
  destruct c as [t st l|d|d n t loc md|d st a b l|d t ps|d sn n fw loc md|];
    try congruence; clear Hc;
    unfold run, list_devices, get_device, register_device, get_sensor_data, send_command,
      register_mycobrain_device, register_device,
      op_model, try_except_HTTPError, mbind, M_bind; rewrite Hget.
  - exec.
  - exec.
  - exec.
  - destruct a, b; exec.
  - exec.
  - exec.
Qed.

(** The outcome of a network operation, as one equation. *)
Lemma net_call_spec (c : call) (s : state) :
  c ≠ Close → one_handle s →
  ∃ h a s1,
    acquired s h a s1
    ∧ run' c s =
      let sh := shape_of' c in
      let req := mk sh (clock_reads (proc s)) in
      let s3 := sent_one h req (tick (reads sh) s1) in
      let failed e := (Raise e, add_logs [(ERROR, prefix sh ++ exn_str e)] s3) in
      match net (length (sent (proc s))) a req with
      | Responded r =>
          if is_success r then (fin sh r, add_logs (info sh) s3)
          else failed (HTTPError (HTTPStatusError (status_code r) (path req)))
      | RequestFailed cls detail => failed (HTTPError (RequestError cls detail))
      | Crashed cls detail => (Raise (BuiltinError cls detail), s3)
      end.
Proof.
  intros Hc Hinv. destruct (get_http_client_spec s Hinv) as (h & a & s1 & Hget & Hacq).
  exists h, a, s1. split; [done|].
  destruct Hacq as (Ha & Hopen & _ & _ & _ & _ & Hcr & Hsent & _).
  rewrite run_shape by done. unfold op_model. rewrite Hget. simpl.
  rewrite Ha, Hopen, Hcr, Hsent. reflexivity.
Qed.

(** ** [max_retries] is inert *)

Lemma get_http_client_max_retries (k : Z) (s : state) :
  _get_http_client (with_max_retries k s)
  = (fst (_get_http_client s), with_max_retries k (snd (_get_http_client s))).
Proof.
  unfold _get_http_client, mbind, M_bind, get_self, with_max_retries.
  destruct s as [[cfg url key tn t r [h|]] p]; reflexivity.
Qed.

Lemma run_max_retries (c : call) (k : Z) (s : state) :
  run' c (with_max_retries k s) = (fst (run' c s), with_max_retries k (snd (run' c s))).
Proof.
  assert (c = Close ∨ c ≠ Close) as [->|Hc] by (destruct c; (by left) || (by right)).
  - unfold run, close, mbind, M_bind, get_self, with_max_retries.
    destruct s as [[cfg url key tn t r [h|]] p]; reflexivity.
  - rewrite !run_shape by done. unfold op_model.
    rewrite get_http_client_max_retries.
    destruct (get_http_client_returns s) as (h & s1 & ->). simpl.
    repeat match goal with
           | |- context [match ?l !! ?h with _ => _ end] => destruct (l !! h)
           | |- context [if is_closed ?a then _ else _] => destruct (is_closed a)
           | |- context [match net ?n ?a ?r with _ => _ end] => destruct (net n a r)
           | |- context [if is_success ?r then _ else _] => destruct (is_success r)
           end; reflexivity.
Qed.

(** ** Failures *)

(** C4. A network operation sends exactly one request.  When the transport
    fails on it (a request error such as a connection failure, or a response
    whose status is not 2xx), the operation raises that very error, the log
    gains exactly one record, at error severity, ending with the text of the
    error, and no value is returned.  Setting [max_retries] to another value
    changes neither the result nor anything else in the final state. *)
Theorem transport_failure_logged_and_reraised :
  ∀ (c : call) (s : state),
    c ≠ Close → one_handle s →
    ∃ h a req,
      handles (proc (snd (run' c s))) !! h = Some a
      ∧ sent (proc (snd (run' c s))) = (sent (proc s) ++ [(h, req)])%list
      ∧ (∀ cls detail,
            net (length (sent (proc s))) a req = RequestFailed cls detail →
            let e := HTTPError (RequestError cls detail) in
            fst (run' c s) = Raise e
            ∧ (∀ v, fst (run' c s) ≠ Return v)
            ∧ ∃ msg, log (proc (snd (run' c s)))
                     = (log (proc s) ++ [(ERROR, (msg ++ exn_str e)%string)])%list)
      ∧ (∀ r,
            net (length (sent (proc s))) a req = Responded r →
            is_success r = false →
            let e := HTTPError (HTTPStatusError (status_code r) (path req)) in
            fst (run' c s) = Raise e
            ∧ (∀ v, fst (run' c s) ≠ Return v)
            ∧ ∃ msg, log (proc (snd (run' c s)))
                     = (log (proc s) ++ [(ERROR, (msg ++ exn_str e)%string)])%list)
      ∧ (∀ k, run' c (with_max_retries k s)
              = (fst (run' c s), with_max_retries k (snd (run' c s)))).
Proof.
  intros c s Hc Hinv.
  destruct (net_call_spec c s Hc Hinv) as (h & a & s1 & Hacq & Hrun).
  destruct Hacq as (Ha & Hopen & _ & _ & _ & Hlog & _ & Hsent & _).
  exists h, a, (mk (shape_of' c) (clock_reads (proc s))).
  split_and!; [| | | |intros k; apply run_max_retries]; rewrite Hrun; cbv zeta.
  - by repeat case_match.
  - repeat case_match; simpl; by rewrite Hsent.
  - intros cls detail ->. simpl. rewrite Hlog. split_and!; [done|done|eauto].
  - intros r -> ->. simpl. rewrite Hlog. split_and!; [done|done|eauto].
Qed.

Lemma fin_not_taxonomy (c : call) (r : response) (e : exn) :
  fin (shape_of' c) r = Raise e → is_SDKError e = false.
Proof.
  destruct c; simpl; unfold fin_items, fin_json, no_get;
    repeat case_match; intros; simplify_eq; reflexivity.
Qed.

(** What reading a 2xx answer can raise. *)
Lemma fin_raises (c : call) (r : response) (e : exn) :
  fin (shape_of' c) r = Raise e →
  (content r = None ∧ e = BuiltinError "JSONDecodeError" "Expecting value")
  ∨ (∃ v, content r = Some v ∧ (∀ d, v ≠ VDict d) ∧ e = no_get v).
Proof.
  destruct c; simpl; unfold fin_items, fin_json;
    destruct (content r) as [v|]; try (intros [= <-]; by left); try done;
    destruct v; try done; intros [= <-]; right; eexists; by split_and!.
Qed.

(** C2, as amended.  Whatever a public operation raises, it is never an
    error of the taxonomy of [exceptions.py], neither the base kind nor a
    subclass.  It is the exception raised below the client, as it is: in a
    state where the invariant holds the failing operation is a network
    operation, it has sent its one request, and the error is the request
    error or the exception of another class that the transport raised on
    that request, or the [httpx.HTTPStatusError] for its non-2xx status, or
    what reading the 2xx body raised ([JSONDecodeError] for a body that is
    not JSON, [AttributeError] for a JSON body with no [get]). *)
Theorem raised_error_is_never_of_the_taxonomy :
  (∀ (c : call) (s : state) (e : exn),
      fst (run' c s) = Raise e →
      is_SDKError e = false ∧ ∀ k message code, e ≠ SDKError k message code)
  ∧ (∀ (c : call) (s : state) (e : exn),
        one_handle s →
        fst (run' c s) = Raise e →
        c ≠ Close
        ∧ ∃ h a req,
            handles (proc (snd (run' c s))) !! h = Some a
            ∧ sent (proc (snd (run' c s))) = (sent (proc s) ++ [(h, req)])%list
            ∧ match net (length (sent (proc s))) a req with
              | Responded r =>
                  if is_success r
                  then (content r = None
                        ∧ ∃ detail, e = BuiltinError "JSONDecodeError" detail)
                       ∨ (∃ v, content r = Some v ∧ (∀ d, v ≠ VDict d) ∧ e = no_get v)
                  else e = HTTPError (HTTPStatusError (status_code r) (path req))
              | RequestFailed cls detail => e = HTTPError (RequestError cls detail)
              | Crashed cls detail => e = BuiltinError cls detail
              end).
Proof.
  split.
  - intros c s e Hr.
    assert (is_SDKError e = false) as He; [|split; [done|by intros k m sc ->]].
    assert (c = Close ∨ c ≠ Close) as [->|Hc] by (destruct c; (by left) || (by right)).
    + revert Hr. unfold run, close, mbind, M_bind, get_self.
      destruct (_http_client (self s)); simpl; discriminate.
    + rewrite run_shape in Hr by done. unfold op_model in Hr.
      destruct (get_http_client_returns s) as (h & s1 & Hget). rewrite Hget in Hr.
      simpl in Hr.
      repeat match type of Hr with
             | context [match ?l !! ?h with _ => _ end] => destruct (l !! h)
             | context [if is_closed ?a then _ else _] => destruct (is_closed a)
             | context [match net ?n ?a ?r with _ => _ end] => destruct (net n a r)
             | context [if is_success ?r then _ else _] => destruct (is_success r)
             end; simpl in Hr; try (by injection Hr as <-).
      by apply fin_not_taxonomy in Hr.
  - intros c s e Hinv Hr.
    assert (c = Close ∨ c ≠ Close) as [->|Hc] by (destruct c; (by left) || (by right)).
    { revert Hr. unfold run, close, mbind, M_bind, get_self.
      destruct (_http_client (self s)); simpl; discriminate. }
    split; [exact Hc|].
    destruct (net_call_spec c s Hc Hinv) as (h & a & s1 & Hacq & Hrun).
    destruct Hacq as (Ha & Hopen & _ & _ & _ & _ & _ & Hsent & _).
    exists h, a, (mk (shape_of' c) (clock_reads (proc s))).
    rewrite Hrun in Hr |- *. cbv zeta in Hr |- *.
    destruct (net _ a _) as [r|cls d|cls d]; [destruct (is_success r)| |]; simpl in *;
      (split_and!; [exact Ha|by rewrite Hsent|]).
    + destruct (fin_raises c _ _ Hr) as [[Hnone ->]|H]; [left; eauto|by right].
    + by injection Hr as <-.
    + by injection Hr as <-.
    + by injection Hr as <-.
Qed.

(** ** Results *)


(** ** The transport handle *)

(** The state a network operation ends in, whatever the transport did. *)
Lemma net_call_state (c : call) (s : state) :
  c ≠ Close → one_handle s →
  ∃ h a s1,
    acquired s h a s1
    ∧ self (snd (run' c s)) = self s1
    ∧ handles (proc (snd (run' c s))) = handles (proc s1)
    ∧ sent (proc (snd (run' c s)))
      = (sent (proc s) ++ [(h, mk (shape_of' c) (clock_reads (proc s)))])%list
    ∧ clock_reads (proc (snd (run' c s))) = (reads (shape_of' c) + clock_reads (proc s))%nat.
Proof.
  intros Hc Hinv.
  destruct (net_call_spec c s Hc Hinv) as (h & a & s1 & Hacq & Hrun).
  exists h, a, s1. split; [done|].
  destruct Hacq as (_ & _ & _ & _ & _ & _ & Hcr & Hsent & _).
  rewrite Hrun. cbv zeta.
  repeat case_match; simpl; rewrite Hsent, Hcr; done.
Qed.

Lemma run_one_handle (c : call) (s : state) :
  one_handle s → one_handle (snd (run' c s)).
Proof.
  intros Hinv.
  assert (c = Close ∨ c ≠ Close) as [->|Hc] by (destruct c; (by left) || (by right)).
  - unfold one_handle, open_handles in *.
    unfold run, close, mbind, M_bind, get_self.
    destruct (_http_client (self s)) as [h|] eqn:Hh; simpl in *; [|by rewrite Hh].
    rewrite <- (Nat.sub_0_r h) at 1. by apply open_from_close.
  - destruct (net_call_state c s Hc Hinv) as (h & a & s1 & Hacq & Hself & Hhs & _).
    destruct Hacq as (_ & _ & _ & Hinv1 & _).
    unfold one_handle, open_handles in *. by rewrite Hself, Hhs.
Qed.

Lemma init_one_handle (u k tn : option string) (t r : Z)
    (cfg : option (gmap string pyval)) (p : process) :
  open_handles p = [] → one_handle (__init__ u k tn t r cfg p).
Proof. intros H. unfold one_handle, open_handles in *. simpl. exact H. Qed.

Lemma run_all_one_handle (cs : list call) (s : state) :
  one_handle s → one_handle (run_all net clock isoformat exn_str cs s).
Proof.
  revert s. induction cs as [|c cs IH]; intros s Hinv; simpl; [done|].
  apply IH. by apply run_one_handle.
Qed.

Lemma close_spec (s : state) :
  one_handle s →
  fst (run' Close s) = Return VNone
  ∧ _http_client (self (snd (run' Close s))) = None
  ∧ open_handles (proc (snd (run' Close s))) = []
  ∧ length (handles (proc (snd (run' Close s)))) = length (handles (proc s))
  ∧ sent (proc (snd (run' Close s))) = sent (proc s)
  ∧ log (proc (snd (run' Close s))) = log (proc s).
Proof.
  intros Hinv. pose proof (run_one_handle Close s Hinv) as Hinv'. revert Hinv'.
  unfold one_handle, open_handles, run, close, mbind, M_bind, get_self.
  destruct (_http_client (self s)) as [h|] eqn:Hh; simpl.
  - intros ->. by rewrite length_alter.
  - rewrite Hh. by intros ->.
Qed.

Lemma run_all_reuses_handle (cs : list call) (s : state) (h : nat) :
  one_handle s → Forall (λ c, c ≠ Close) cs → _http_client (self s) = Some h →
  _http_client (self (run_all net clock isoformat exn_str cs s)) = Some h
  ∧ handles (proc (run_all net clock isoformat exn_str cs s)) = handles (proc s)
  ∧ ∃ reqs, length reqs = length cs
            ∧ sent (proc (run_all net clock isoformat exn_str cs s))
              = (sent (proc s) ++ ((λ r, (h, r)) <$> reqs))%list.
Proof.
  intros Hinv Hcs. revert s Hinv.
  induction Hcs as [|c cs Hc Hcs IH]; intros s Hinv Hh; simpl.
  - split_and!; [done|done|]. exists []. by rewrite app_nil_r.
  - destruct (net_call_state c s Hc Hinv) as (h' & a & s1 & Hacq & Hself & Hhs & Hsent & _).
    destruct Hacq as (_ & _ & Hh1 & _ & _ & _ & _ & _ & Hcase).
    rewrite Hh in Hcase. destruct Hcase as [-> ->].
    destruct (IH (snd (run' c s))) as (Hh' & Hhs' & reqs & Hlen & Hsent').
    { by apply run_one_handle. }
    { by rewrite Hself. }
    split_and!; [done|by rewrite Hhs', Hhs|].
    exists (mk (shape_of' c) (clock_reads (proc s)) :: reqs). split; [simpl; by rewrite Hlen|].
    rewrite Hsent', Hsent, <- app_assoc. done.
Qed.

(** C5. In a state where the open handles are exactly the one the client
    refers to (every state reached from construction is such a state):
    at most one handle is open, and this still holds after any operation;
    an operation that finds a handle uses it and creates none, and so does
    every operation of a sequence with no [close] in it; an operation that
    finds none creates exactly one and keeps it; [close] closes the
    handle if there is one, clears the reference and raises nothing; a
    second [close] changes nothing and raises nothing; and the operation
    after a [close] works through a handle created after every earlier
    one. *)
Theorem at_most_one_transport_handle :
  ∀ (s : state),
    one_handle s →
    (length (open_handles (proc s)) ≤ 1)%nat
    ∧ (∀ c, one_handle (snd (run' c s)))
    ∧ (∀ cs, (length (open_handles (proc (run_all net clock isoformat exn_str cs s))) ≤ 1)%nat)
    ∧ (∀ c h, c ≠ Close → _http_client (self s) = Some h →
         _http_client (self (snd (run' c s))) = Some h
         ∧ handles (proc (snd (run' c s))) = handles (proc s)
         ∧ ∃ req, sent (proc (snd (run' c s))) = (sent (proc s) ++ [(h, req)])%list)
    ∧ (∀ cs h, Forall (λ c, c ≠ Close) cs → _http_client (self s) = Some h →
         _http_client (self (run_all net clock isoformat exn_str cs s)) = Some h
         ∧ handles (proc (run_all net clock isoformat exn_str cs s)) = handles (proc s)
         ∧ ∃ reqs, length reqs = length cs
                   ∧ sent (proc (run_all net clock isoformat exn_str cs s))
                     = (sent (proc s) ++ ((λ r, (h, r)) <$> reqs))%list)
    ∧ (∀ c, c ≠ Close → _http_client (self s) = None →
         _http_client (self (snd (run' c s))) = Some (length (handles (proc s)))
         ∧ (∃ a, handles (proc (snd (run' c s))) = (handles (proc s) ++ [a])%list
                 ∧ is_closed a = false)
         ∧ ∃ req, sent (proc (snd (run' c s)))
                  = (sent (proc s) ++ [(length (handles (proc s)), req)])%list)
    ∧ (fst (run' Close s) = Return VNone
       ∧ _http_client (self (snd (run' Close s))) = None
       ∧ open_handles (proc (snd (run' Close s))) = [])
    ∧ run' Close (snd (run' Close s)) = (Return VNone, snd (run' Close s))
    ∧ (∀ c, c ≠ Close →
         let s2 := snd (run' c (snd (run' Close s))) in
         _http_client (self s2) = Some (length (handles (proc s)))
         ∧ open_handles (proc s2) = [length (handles (proc s))]
         ∧ _http_client (self s2) ≠ _http_client (self s)).
Proof.
  intros s Hinv.
  assert (∀ s0, one_handle s0 → (length (open_handles (proc s0)) ≤ 1)%nat) as Hle.
  { intros s0 H0. rewrite H0. destruct (_http_client (self s0)); simpl; lia. }
  split_and!.
  - by apply Hle.
  - intros c. by apply run_one_handle.
  - intros cs. by apply Hle, run_all_one_handle.
  - intros c h Hc Hh.
    destruct (net_call_state c s Hc Hinv) as (h' & a & s1 & Hacq & Hself & Hhs & Hsent & _).
    destruct Hacq as (_ & _ & Hh1 & _ & _ & _ & _ & _ & Hcase).
    rewrite Hh in Hcase. destruct Hcase as [-> ->].
    rewrite Hself, Hhs, Hsent. eauto.
  - intros cs h Hcs Hh. by apply run_all_reuses_handle.
  - intros c Hc Hh.
    destruct (net_call_state c s Hc Hinv) as (h' & a & s1 & Hacq & Hself & Hhs & Hsent & _).
    destruct Hacq as (_ & Hopen & Hh1 & _ & _ & _ & _ & _ & Hcase).
    rewrite Hh in Hcase. destruct Hcase as (-> & Hhs1 & _).
    rewrite Hself, Hhs, Hsent, Hh1, Hhs1. split_and!; eauto.
  - by destruct (close_spec s Hinv) as (? & _).
  - by destruct (close_spec s Hinv) as (_ & ? & _).
  - by destruct (close_spec s Hinv) as (_ & _ & ? & _).
  - destruct (close_spec s Hinv) as (_ & Hnone & _).
    revert Hnone. generalize (snd (run' Close s)). intros s0 Hnone.
    unfold run, close, mbind, M_bind, get_self. by rewrite Hnone.
  - intros c Hc. cbv zeta.
    destruct (close_spec s Hinv) as (_ & Hnone & _ & Hlen & _).
    pose proof (run_one_handle Close s Hinv) as Hinv1.
    destruct (net_call_state c _ Hc Hinv1) as (h' & a & s1 & Hacq & Hself & Hhs & _).
    destruct Hacq as (_ & _ & Hh1 & Hinv2 & _ & _ & _ & _ & Hcase).
    rewrite Hnone in Hcase. destruct Hcase as (-> & _).
    rewrite Hlen in Hh1.
    assert (_http_client (self (snd (run' c (snd (run' Close s)))))
            = Some (length (handles (proc s)))) as Hnew by (by rewrite Hself).
    split_and!; [done| |].
    + unfold one_handle in Hinv2. unfold open_handles in *.
      by rewrite Hhs, Hinv2, Hh1.
    + rewrite Hnew. destruct (_http_client (self s)) as [h|] eqn:Hh; [|done].
      destruct (one_handle_lookup s h Hinv Hh) as (b & Hb & _).
      apply lookup_lt_Some in Hb. intros [= E]. lia.
Qed.

(** ** Requests *)

Lemma payload_no_None (device_id name device_type : string)
    (location metadata : option (gmap string pyval)) (k : string) :
  register_device_payload device_id name device_type location metadata !! k ≠ Some VNone.
Proof.
  unfold register_device_payload.
  destruct location as [loc|], metadata as [md|]; simpl;
    repeat case_match;
    rewrite ?lookup_insert, ?lookup_singleton; repeat case_decide; done.
Qed.

(** C7. With neither location nor metadata, the body that [register_device]
    posts has the three keys [device_id], [name], [device_type] and no
    other.  In general an absent location or metadata leaves no key of that
    name in the body, no entry of the body is [None], and the body posted to
    [/devices/register] is this payload. *)
Theorem register_device_omits_absent_fields :
  (∀ device_id name device_type,
      dom (register_device_payload device_id name device_type None None)
      = ({[ "device_id"; "name"; "device_type" ]} : gset string)
      ∧ register_device_payload device_id name device_type None None
        = {[ "device_id" := VStr device_id; "name" := VStr name;
             "device_type" := VStr device_type ]})
  ∧ (∀ device_id name device_type location metadata,
        let payload :=
          register_device_payload device_id name device_type location metadata in
        (location = None → payload !! "location" = None)
        ∧ (metadata = None → payload !! "metadata" = None)
        ∧ (∀ k, payload !! k ≠ Some VNone))
  ∧ (∀ device_id name device_type location metadata (s : state),
        one_handle s →
        ∃ h, sent (proc (snd (register_device net exn_str device_id name device_type
                                location metadata s)))
             = (sent (proc s)
                ++ [(h, mkRequest POST "/devices/register" ∅
                          (Some (VDict (register_device_payload device_id name
                                          device_type location metadata))))])%list).
Proof.
  split_and!.
  - intros d n t. split; [|reflexivity].
    unfold register_device_payload. rewrite !dom_insert_L, dom_singleton_L. set_solver.
  - intros d n t loc md. cbv zeta. split_and!.
    + intros ->. unfold register_device_payload.
      destruct md as [md|]; simpl; repeat case_match; by simplify_map_eq.
    + intros ->. unfold register_device_payload.
      destruct loc as [loc|]; simpl; repeat case_match; by simplify_map_eq.
    + apply payload_no_None.
  - intros d n t loc md s Hinv.
    destruct (net_call_state (RegisterDevice d n t loc md) s ltac:(done) Hinv)
      as (h & a & s1 & _ & _ & _ & Hsent & _).
    exists h. exact Hsent.
Qed.

Lemma mycobrain_metadata_device_type_is_Some (sn fw : string)
    (md : option (gmap string pyval)) :
  is_Some (mycobrain_metadata sn fw md !! "device_type").
Proof.
  unfold mycobrain_metadata. destruct md as [c|]; simpl; [case_match|].
  - apply lookup_union_is_Some. right. by simplify_map_eq.
  - by simplify_map_eq.
  - by simplify_map_eq.
Qed.

Lemma mycobrain_metadata_truthy (sn fw : string) (md : option (gmap string pyval)) :
  truthy_dict (Some (mycobrain_metadata sn fw md)) = true.
Proof.
  unfold truthy_dict. case_bool_decide as E; [|done].
  destruct (mycobrain_metadata_device_type_is_Some sn fw md) as [v Hv].
  by rewrite E, lookup_empty in Hv.
Qed.

(** C1, as amended.  The registration posted by [register_mycobrain_device]
    has [device_type] equal to [mycobrain] at the top level, and always
    carries a [metadata] mapping.  In that mapping every entry of the
    metadata passed by the caller is kept as the caller gave it, the three
    keys [serial_number], [firmware_version] and [device_type] included; each
    of these three keys holds the value from the explicit parameter (or
    [mycobrain]) when the caller's metadata has no entry for it. *)
Theorem mycobrain_caller_metadata_takes_precedence :
  ∀ (serial_number firmware_version : string) (metadata : option (gmap string pyval)),
    let m := mycobrain_metadata serial_number firmware_version metadata in
    let absent k := match metadata with Some c => c !! k | None => None end = None in
    (∀ caller k v, metadata = Some caller → caller !! k = Some v → m !! k = Some v)
    ∧ (absent "serial_number" → m !! "serial_number" = Some (VStr serial_number))
    ∧ (absent "firmware_version" → m !! "firmware_version" = Some (VStr firmware_version))
    ∧ (absent "device_type" → m !! "device_type" = Some (VStr "mycobrain"))
    ∧ (∀ device_id name location,
          let payload :=
            register_device_payload device_id name "mycobrain" location (Some m) in
          payload !! "device_type" = Some (VStr "mycobrain")
          ∧ payload !! "metadata" = Some (VDict m)
          ∧ ∀ (s : state), one_handle s →
              ∃ h, sent (proc (snd (register_mycobrain_device net exn_str device_id
                                      serial_number name firmware_version location
                                      metadata s)))
                   = (sent (proc s)
                      ++ [(h, mkRequest POST "/devices/register" ∅
                                (Some (VDict payload)))])%list).
Proof.
  intros sn fw md. cbv zeta. split_and!.
  - intros c k v -> Hk. unfold mycobrain_metadata, truthy_dict.
    case_bool_decide as E; simpl.
    + by rewrite E, lookup_empty in Hk.
    + by apply lookup_union_Some_l.
  - intros Habs. unfold mycobrain_metadata. destruct md as [c|]; [case_match|].
    + rewrite lookup_union_r by done. by simplify_map_eq.
    + by simplify_map_eq.
    + by simplify_map_eq.
  - intros Habs. unfold mycobrain_metadata. destruct md as [c|]; [case_match|].
    + rewrite lookup_union_r by done. by simplify_map_eq.
    + by simplify_map_eq.
    + by simplify_map_eq.
  - intros Habs. unfold mycobrain_metadata. destruct md as [c|]; [case_match|].
    + rewrite lookup_union_r by done. by simplify_map_eq.
    + by simplify_map_eq.
    + by simplify_map_eq.
  - intros d n loc. split_and!.
    + unfold register_device_payload. rewrite mycobrain_metadata_truthy.
      destruct loc as [l|]; simpl; repeat case_match; by simplify_map_eq.
    + unfold register_device_payload. rewrite mycobrain_metadata_truthy.
      by simplify_map_eq.
    + intros s Hinv.
      destruct (net_call_state (RegisterMycobrainDevice d sn n fw loc md) s ltac:(done) Hinv)
        as (h & a & s1 & _ & _ & _ & Hsent & _).
      exists h. exact Hsent.
Qed.

(** ** The time window of [get_sensor_data] *)




End Properties.

(** ** Truthiness *)


(** ** Importing the package *)


(** With annotations left unevaluated the same package imports: the
    failure is the evaluation of the annotation and nothing else. *)
Lemma package_import_with_deferred_annotations :
  fst (PyLoad.package_init false PyLoad.fresh) = Return tt.
Proof. vm_compute. reflexivity. Qed.

(** ** Examples *)

(** C1: a caller whose metadata sets [device_type] and [serial_number] gets
    its own values into the registration, not the fixed ones. *)
Lemma mycobrain_fixed_keys_are_overridden :
  ∃ m, register_device_payload "dev-1" "Brain" "mycobrain" None
         (Some (mycobrain_metadata "SN-1" "1.0.0" (Some demo_caller_metadata)))
       !! "metadata" = Some (VDict m)
       ∧ m !! "device_type" = Some (VStr "custom")
       ∧ m !! "serial_number" = Some (VStr "FAKE")
       ∧ m !! "device_type" ≠ Some (VStr "mycobrain")
       ∧ m !! "serial_number" ≠ Some (VStr "SN-1").
Proof.
  exists (mycobrain_metadata "SN-1" "1.0.0" (Some demo_caller_metadata)).
  split_and!; vm_compute; (reflexivity || discriminate).
Qed.

Lemma mycobrain_caller_metadata_takes_precedence_witness :
  mycobrain_metadata "SN-1" "1.0.0" (Some demo_site_metadata) !! "serial_number"
  = Some (VStr "SN-1")
  ∧ mycobrain_metadata "SN-1" "1.0.0" (Some demo_site_metadata) !! "site"
    = Some (VStr "lab").
Proof.
  destruct (mycobrain_caller_metadata_takes_precedence net_200 demo_clock demo_isoformat
              demo_exn_str "SN-1" "1.0.0" (Some demo_site_metadata)) as (H1 & H2 & _).
  split.
  - apply H2. reflexivity.
  - apply (H1 demo_site_metadata "site" (VStr "lab")); reflexivity.
Defined.

(** C2: against a server that answers 500, [list_devices] raises the
    [httpx] status error, which is not the base kind of the taxonomy. *)
Lemma failing_call_raises_the_httpx_error :
  fst (run net_500 demo_clock demo_isoformat demo_exn_str (ListDevices None None 100)
         demo_state)
  = Raise (HTTPError (HTTPStatusError 500 "/devices"))
  ∧ ∀ message code,
      fst (run net_500 demo_clock demo_isoformat demo_exn_str (ListDevices None None 100)
             demo_state)
      ≠ Raise (SDKError NatureOSError message code).
Proof.
  assert (fst (run net_500 demo_clock demo_isoformat demo_exn_str
                 (ListDevices None None 100) demo_state)
          = Raise (HTTPError (HTTPStatusError 500 "/devices"))) as H
    by (vm_compute; reflexivity).
  split; [exact H|]. intros m c. rewrite H. discriminate.
Qed.

Lemma raised_error_is_never_of_the_taxonomy_witness :
  one_handle demo_state
  ∧ fst (run net_500 demo_clock demo_isoformat demo_exn_str (GetDevice "dev-1") demo_state)
    = Raise (HTTPError (HTTPStatusError 500 "/devices/dev-1"))
  ∧ is_SDKError (HTTPError (HTTPStatusError 500 "/devices/dev-1")) = false
  ∧ GetDevice "dev-1" ≠ Close.
Proof.
  assert (one_handle demo_state) as Hinv by reflexivity.
  assert (fst (run net_500 demo_clock demo_isoformat demo_exn_str (GetDevice "dev-1")
                 demo_state)
          = Raise (HTTPError (HTTPStatusError 500 "/devices/dev-1"))) as H
    by (vm_compute; reflexivity).
  destruct (raised_error_is_never_of_the_taxonomy net_500 demo_clock demo_isoformat
              demo_exn_str) as [Hnever Horigin].
  split; [exact Hinv|]. split; [exact H|]. split.
  - exact (proj1 (Hnever (GetDevice "dev-1") demo_state _ H)).
  - exact (proj1 (Horigin (GetDevice "dev-1") demo_state _ Hinv H)).
Defined.

Lemma transport_failure_logged_and_reraised_witness :
  SendCommand "dev-1" "reboot" ∅ ≠ Close
  ∧ one_handle demo_state
  ∧ fst (run net_500 demo_clock demo_isoformat demo_exn_str
           (SendCommand "dev-1" "reboot" ∅) demo_state)
    = Raise (HTTPError (HTTPStatusError 500 "/devices/dev-1/commands")).
Proof.
  assert (SendCommand "dev-1" "reboot" ∅ ≠ Close) as Hc by discriminate.
  assert (one_handle demo_state) as Hinv by reflexivity.
  split; [exact Hc|]. split; [exact Hinv|].
  destruct (transport_failure_logged_and_reraised net_500 demo_clock demo_isoformat
              demo_exn_str (SendCommand "dev-1" "reboot" ∅) demo_state Hc Hinv)
    as (h & a & req & _ & Hsent & _ & Hstatus & _).
  destruct (Hstatus (mkResponse 500 None) eq_refl eq_refl) as (Hr & _).
  rewrite Hr. simpl in Hsent. injection Hsent as _ <-. reflexivity.
Defined.

Lemma at_most_one_transport_handle_witness :
  one_handle (snd (run net_200 demo_clock demo_isoformat demo_exn_str (GetDevice "dev-1")
                     demo_state))
  ∧ _http_client
      (self (snd (run net_200 demo_clock demo_isoformat demo_exn_str (GetDevice "dev-2")
                    (snd (run net_200 demo_clock demo_isoformat demo_exn_str Close
                            (snd (run net_200 demo_clock demo_isoformat demo_exn_str
                                    (GetDevice "dev-1") demo_state)))))))
    = Some 1%nat.
Proof.
  assert (one_handle (snd (run net_200 demo_clock demo_isoformat demo_exn_str
                             (GetDevice "dev-1") demo_state))) as Hinv
    by (vm_compute; reflexivity).
  split; [exact Hinv|].
  destruct (at_most_one_transport_handle net_200 demo_clock demo_isoformat demo_exn_str
              _ Hinv) as (_ & _ & _ & _ & _ & _ & _ & _ & Hfresh).
  destruct (Hfresh (GetDevice "dev-2") ltac:(discriminate)) as (H & _).
  rewrite H. reflexivity.
Defined.


Lemma register_device_omits_absent_fields_witness :
  one_handle demo_state
  ∧ ∃ h, sent (proc (snd (register_device net_200 demo_exn_str "dev-1" "Probe" "sensor"
                            None None demo_state)))
         = [(h, mkRequest POST "/devices/register" ∅
                  (Some (VDict {[ "device_id" := VStr "dev-1"; "name" := VStr "Probe";
                                  "device_type" := VStr "sensor" ]})))].
Proof.
  assert (one_handle demo_state) as Hinv by reflexivity.
  split; [exact Hinv|].
  destruct (register_device_omits_absent_fields net_200 demo_clock demo_isoformat
              demo_exn_str) as (_ & _ & H).
  destruct (H "dev-1" "Probe" "sensor" None None demo_state Hinv) as (h & Hs).
  exists h. exact Hs.
Defined.




(** * Further properties of the client *)

Section Coverage.

Variable net : nat -> AsyncClient -> request -> net_outcome.
Variable clock : nat -> datetime.
Variable isoformat : datetime -> string.
Variable exn_str : exn -> string.

Abbreviation run'' := (run net clock isoformat exn_str).
Abbreviation shape_of'' := (shape_of clock isoformat).

(** Result, log and requests of a network operation, by what the transport
    did with its request. *)
Lemma net_call_result (c : call) (s : state) :
  c ≠ Close → one_handle s →
  ∃ h a,
    let sh := shape_of'' c in
    let req := mk sh (clock_reads (proc s)) in
    let res := run'' c s in
    handles (proc (snd res)) !! h = Some a
    ∧ is_closed a = false
    ∧ sent (proc (snd res)) = (sent (proc s) ++ [(h, req)])%list
    ∧ match net (length (sent (proc s))) a req with
      | Responded r =>
          if is_success r
          then fst res = fin sh r
               ∧ log (proc (snd res)) = (log (proc s) ++ info sh)%list
          else fst res = Raise (HTTPError (HTTPStatusError (status_code r) (path req)))
               ∧ log (proc (snd res))
                 = (log (proc s)
                    ++ [(ERROR, (prefix sh
                                 ++ exn_str (HTTPError (HTTPStatusError (status_code r)
                                                          (path req))))%string)])%list
      | RequestFailed cls detail =>
          fst res = Raise (HTTPError (RequestError cls detail))
          ∧ log (proc (snd res))
            = (log (proc s)
               ++ [(ERROR, (prefix sh
                            ++ exn_str (HTTPError (RequestError cls detail)))%string)])%list
      | Crashed cls detail =>
          fst res = Raise (BuiltinError cls detail)
          ∧ log (proc (snd res)) = log (proc s)
      end.
Proof.
  intros Hc Hinv.
  destruct (net_call_spec net clock isoformat exn_str c s Hc Hinv)
    as (h & a & s1 & Hacq & Hrun).
  destruct Hacq as (Ha & Hopen & _ & _ & _ & Hlog & _ & Hsent & _).
  exists h, a. cbv zeta. rewrite Hrun. cbv zeta.
  split_and!.
  - by repeat case_match.
  - done.
  - repeat case_match; simpl; by rewrite Hsent.
  - repeat case_match; simpl; by rewrite Hlog.
Qed.

(** ** Reading one device *)

(** X1.  [get_device] sends GET [/devices/<device_id>] with no query and no
    body; when the answer has a 2xx status and a JSON body, that body is
    returned as it is and the log is left untouched. *)
Theorem get_device_returns_the_body :
  ∀ (device_id : string) (s : state),
    one_handle s →
    ∃ h a,
      let req := mkRequest GET ("/devices/" ++ device_id) ∅ None in
      let res := get_device net exn_str device_id s in
      handles (proc (snd res)) !! h = Some a
      ∧ sent (proc (snd res)) = (sent (proc s) ++ [(h, req)])%list
      ∧ ∀ r v, net (length (sent (proc s))) a req = Responded r →
               is_success r = true → content r = Some v →
               fst res = Return v ∧ log (proc (snd res)) = log (proc s).
Proof.
  intros d s Hinv.
  destruct (net_call_result (GetDevice d) s ltac:(done) Hinv)
    as (h & a & Ha & _ & Hsent & Hout).
  exists h, a. cbv zeta in *. split_and!; [exact Ha|exact Hsent|].
  intros r v Hnet Hok Hc. cbn [shape_of mk fin info prefix reads run] in Hout.
  rewrite Hnet, Hok in Hout.
  unfold fin_json in Hout. rewrite Hc, app_nil_r in Hout. exact Hout.
Qed.

(** ** Commands and registration *)

(** X2.  [send_command] posts to [/devices/<device_id>/commands] a body with
    exactly the two keys [command_type] and [parameters]; the parameters are
    sent as given, an empty mapping included.  When the answer has a 2xx
    status, one INFO record naming the command and the device is written,
    and a JSON body is returned as it is. *)
Theorem send_command_posts_both_keys :
  ∀ (device_id command_type : string) (parameters : gmap string pyval) (s : state),
    one_handle s →
    ∃ h a body,
      let req := mkRequest POST ("/devices/" ++ device_id ++ "/commands") ∅
                   (Some (VDict body)) in
      let res := send_command net exn_str device_id command_type parameters s in
      handles (proc (snd res)) !! h = Some a
      ∧ sent (proc (snd res)) = (sent (proc s) ++ [(h, req)])%list
      ∧ dom body = ({[ "command_type"; "parameters" ]} : gset string)
      ∧ body !! "command_type" = Some (VStr command_type)
      ∧ body !! "parameters" = Some (VDict parameters)
      ∧ ∀ r v, net (length (sent (proc s))) a req = Responded r →
               is_success r = true → content r = Some v →
               fst res = Return v
               ∧ log (proc (snd res))
                 = (log (proc s)
                    ++ [(INFO, ("Sent command " ++ command_type ++ " to device "
                                ++ device_id)%string)])%list.
Proof.
  intros d t ps s Hinv.
  destruct (net_call_result (SendCommand d t ps) s ltac:(done) Hinv)
    as (h & a & Ha & _ & Hsent & Hout).
  exists h, a, {[ "command_type" := VStr t; "parameters" := VDict ps ]}.
  cbv zeta in *. split_and!.
  - exact Ha.
  - exact Hsent.
  - rewrite dom_insert_L, dom_singleton_L. set_solver.
  - by simplify_map_eq.
  - by simplify_map_eq.
  - intros r v Hnet Hok Hc. cbn [shape_of mk fin info prefix reads run] in Hout.
    rewrite Hnet, Hok in Hout. unfold fin_json in Hout. rewrite Hc in Hout. exact Hout.
Qed.

(** X3.  [register_device] writes its INFO record as soon as the status is
    2xx, before the body is read: with a JSON body the body is returned,
    and with a body that is not JSON the call raises [JSONDecodeError] while
    the log already says that the device was registered. *)
Theorem register_device_logs_before_parsing :
  ∀ (device_id name device_type : string)
    (location metadata : option (gmap string pyval)) (s : state),
    one_handle s →
    ∃ h a,
      let req := mkRequest POST "/devices/register" ∅
                   (Some (VDict (register_device_payload device_id name device_type
                                   location metadata))) in
      let res := register_device net exn_str device_id name device_type location
                   metadata s in
      handles (proc (snd res)) !! h = Some a
      ∧ sent (proc (snd res)) = (sent (proc s) ++ [(h, req)])%list
      ∧ ∀ r, net (length (sent (proc s))) a req = Responded r →
             is_success r = true →
             log (proc (snd res))
             = (log (proc s) ++ [(INFO, ("Registered device: " ++ device_id)%string)])%list
             ∧ (∀ v, content r = Some v → fst res = Return v)
             ∧ (content r = None →
                ∃ detail, fst res = Raise (BuiltinError "JSONDecodeError" detail)).
Proof.
  intros d n t loc md s Hinv.
  destruct (net_call_result (RegisterDevice d n t loc md) s ltac:(done) Hinv)
    as (h & a & Ha & _ & Hsent & Hout).
  exists h, a. cbv zeta in *. split; [exact Ha|]. split; [exact Hsent|].
  intros r Hnet Hok. cbn [shape_of mk fin info prefix reads run] in Hout.
  rewrite Hnet, Hok in Hout. destruct Hout as [Hres Hlog].
  split_and!; [exact Hlog| |].
  - intros v Hc. rewrite Hres. unfold fin_json. by rewrite Hc.
  - intros Hc. rewrite Hres. unfold fin_json. rewrite Hc. eauto.
Qed.

(** ** What is logged as an error and what is not *)

Lemma fin_unparsable (c : call) (r : response) :
  content r = None →
  fin (shape_of'' c) r = Raise (BuiltinError "JSONDecodeError" "Expecting value").
Proof. intros Hc. destruct c; simpl; unfold fin_items, fin_json; by rewrite Hc. Qed.

Lemma info_is_INFO (c : call) : Forall (λ x, x.1 = INFO) (info (shape_of'' c)).
Proof. destruct c; simpl; repeat constructor. Qed.

(** X4.  The [except] clauses catch [httpx.HTTPError] only.  When the
    transport raises an exception of another class, a network operation
    raises it unchanged and writes no record at all; when a 2xx answer has
    a body that is not JSON, it raises [JSONDecodeError] and writes no
    record of ERROR level.  In both cases the request has gone out. *)
Theorem only_httpx_errors_are_logged :
  ∀ (c : call) (s : state),
    c ≠ Close → one_handle s →
    ∃ h a req,
      let res := run'' c s in
      handles (proc (snd res)) !! h = Some a
      ∧ sent (proc (snd res)) = (sent (proc s) ++ [(h, req)])%list
      ∧ (∀ cls detail,
            net (length (sent (proc s))) a req = Crashed cls detail →
            fst res = Raise (BuiltinError cls detail)
            ∧ log (proc (snd res)) = log (proc s))
      ∧ (∀ r, net (length (sent (proc s))) a req = Responded r →
              is_success r = true → content r = None →
              (∃ detail, fst res = Raise (BuiltinError "JSONDecodeError" detail))
              ∧ ∃ added, log (proc (snd res)) = (log (proc s) ++ added)%list
                         ∧ Forall (λ x, x.1 = INFO) added).
Proof.
  intros c s Hc Hinv.
  destruct (net_call_result c s Hc Hinv) as (h & a & Ha & _ & Hsent & Hout).
  exists h, a, (mk (shape_of'' c) (clock_reads (proc s))).
  cbv zeta in *. split_and!.
  - exact Ha.
  - exact Hsent.
  - intros cls detail Hnet. by rewrite Hnet in Hout.
  - intros r Hnet Hok Hcontent. rewrite Hnet, Hok in Hout. destruct Hout as [Hres Hlog].
    split; [rewrite Hres, fin_unparsable by done; eauto|].
    exists (info (shape_of'' c)). split; [exact Hlog|apply info_is_INFO].
Qed.

(** ** Sensor data *)

(** X5.  When the answer to [get_sensor_data] has a 2xx status and a JSON
    object as body, the result is the value of its [items] entry as it is
    (a null entry gives [None]), and the empty list when there is no such
    entry; a JSON body that is not an object makes the call raise
    [AttributeError], whose text names the type of the body.  None of these
    paths writes to the log. *)
Theorem get_sensor_data_returns_items :
  ∀ (device_id : string) (sensor_type : option string)
    (start_time end_time : option datetime) (limit : Z) (s : state),
    one_handle s →
    ∃ h a req,
      let res := get_sensor_data net clock isoformat exn_str device_id sensor_type
                   start_time end_time limit s in
      handles (proc (snd res)) !! h = Some a
      ∧ sent (proc (snd res)) = (sent (proc s) ++ [(h, req)])%list
      ∧ method req = GET
      ∧ path req = "/devices/" ++ device_id ++ "/sensor-data"
      ∧ json req = None
      ∧ ∀ r, net (length (sent (proc s))) a req = Responded r →
             is_success r = true →
             log (proc (snd res)) = log (proc s)
             ∧ (∀ d, content r = Some (VDict d) →
                     fst res = Return (default (VList []) (d !! "items")))
             ∧ (∀ d, content r = Some (VDict d) → d !! "items" = Some VNone →
                     fst res = Return VNone)
             ∧ (∀ v, content r = Some v → (∀ d, v ≠ VDict d) →
                     fst res = Raise (BuiltinError "AttributeError"
                                        ("'" ++ type_name v
                                         ++ "' object has no attribute 'get'"))).
Proof.
  intros dv st a0 b l s Hinv.
  destruct (net_call_result (GetSensorData dv st a0 b l) s ltac:(done) Hinv)
    as (h & a & Ha & _ & Hsent & Hout).
  exists h, a, (mk (shape_of'' (GetSensorData dv st a0 b l)) (clock_reads (proc s))).
  cbv zeta in *. split_and!; [exact Ha|exact Hsent|reflexivity|reflexivity|reflexivity|].
  intros r Hnet Hok. rewrite Hnet, Hok in Hout.
  cbn [shape_of mk fin info prefix reads run] in Hout. destruct Hout as [Hres Hlog].
  rewrite app_nil_r in Hlog. split_and!; [exact Hlog| | |].
  - intros d Hc. rewrite Hres. unfold fin_items. by rewrite Hc.
  - intros d Hc Hitems. rewrite Hres. unfold fin_items. by rewrite Hc, Hitems.
  - intros v Hc Hv. rewrite Hres. unfold fin_items. rewrite Hc.
    destruct v; try reflexivity. by destruct (Hv d).
Qed.

(** X6.  The query of [get_sensor_data] always has [limit] as passed,
    [start_time] and [end_time]; it has [sensor_type] exactly when a
    non-empty one is passed, and no other key.  The clock is read once for
    each bound that is not passed, so not at all when both are. *)
Theorem get_sensor_data_query_and_clock :
  ∀ (device_id : string) (sensor_type : option string)
    (start_time end_time : option datetime) (limit : Z) (s : state),
    one_handle s →
    ∃ h req,
      let res := get_sensor_data net clock isoformat exn_str device_id sensor_type
                   start_time end_time limit s in
      sent (proc (snd res)) = (sent (proc s) ++ [(h, req)])%list
      ∧ params req !! "limit" = Some (VInt limit)
      ∧ params req !! "sensor_type"
        = match sensor_type with
          | Some v => if String.eqb v "" then None else Some (VStr v)
          | None => None
          end
      ∧ is_Some (params req !! "start_time")
      ∧ is_Some (params req !! "end_time")
      ∧ dom (params req)
        ⊆ ({[ "limit"; "sensor_type"; "start_time"; "end_time" ]} : gset string)
      ∧ clock_reads (proc (snd res))
        = (match start_time with Some _ => 0 | None => 1 end
           + match end_time with Some _ => 0 | None => 1 end
           + clock_reads (proc s))%nat.
Proof.
  intros dv st a0 b l s Hinv.
  destruct (net_call_state net clock isoformat exn_str (GetSensorData dv st a0 b l) s
              ltac:(done) Hinv) as (h & a & s1 & _ & _ & _ & Hsent & Hreads).
  exists h, (mk (shape_of'' (GetSensorData dv st a0 b l)) (clock_reads (proc s))).
  cbv zeta. split_and!; [exact Hsent| | | | | |exact Hreads];
    cbn [shape_of mk params]; unfold sensor_params, truthy_str.
  - destruct st as [v|]; [destruct (String.eqb v "")|]; by simplify_map_eq.
  - destruct st as [v|]; [destruct (String.eqb v "")|]; by simplify_map_eq.
  - by simplify_map_eq.
  - by simplify_map_eq.
  - destruct st as [v|]; [destruct (String.eqb v "")|]; simpl;
      rewrite !dom_insert_L, ?dom_singleton_L; intros x;
      rewrite !elem_of_union, !elem_of_singleton; tauto.
Qed.

(** ** Listing devices *)

(** X7.  The query of [list_devices] has [limit] exactly as passed (zero and
    negative values included), [device_type] and [status] exactly when a
    non-empty one is passed, and no other key; it goes out as GET [/devices]
    with no body. *)
Theorem list_devices_query :
  ∀ (device_type status : option string) (limit : Z),
    let ps := list_devices_params device_type status limit in
    ps !! "limit" = Some (VInt limit)
    ∧ ps !! "device_type"
      = match device_type with
        | Some v => if String.eqb v "" then None else Some (VStr v)
        | None => None
        end
    ∧ ps !! "status"
      = match status with
        | Some v => if String.eqb v "" then None else Some (VStr v)
        | None => None
        end
    ∧ dom ps ⊆ ({[ "limit"; "device_type"; "status" ]} : gset string)
    ∧ ∀ (s : state), one_handle s →
        ∃ h, sent (proc (snd (list_devices net exn_str device_type status limit s)))
             = (sent (proc s) ++ [(h, mkRequest GET "/devices" ps None)])%list.
Proof.
  intros dt st l. cbv zeta. unfold list_devices_params, truthy_str. split_and!.
  - destruct dt as [v|], st as [w|]; repeat case_match; by simplify_map_eq.
  - destruct dt as [v|], st as [w|]; repeat case_match; by simplify_map_eq.
  - destruct dt as [v|], st as [w|]; repeat case_match; by simplify_map_eq.
  - destruct dt as [v|], st as [w|]; repeat case_match; simpl;
      rewrite ?dom_insert_L, ?dom_singleton_L; intros x;
      rewrite ?elem_of_union, ?elem_of_singleton; tauto.
  - intros s Hinv.
    destruct (net_call_state net clock isoformat exn_str (ListDevices dt st l) s
                ltac:(done) Hinv) as (h & a & s1 & _ & _ & _ & Hsent & _).
    exists h. exact Hsent.
Qed.

(** ** Sequences of operations *)

(** X8.  Whatever the transport answers, a sequence of operations sends as
    many requests as it has network operations: no operation sends a second
    request and none gives up before sending; [close] sends nothing. *)
Theorem one_request_per_network_call :
  ∀ (cs : list call) (s : state),
    one_handle s →
    length (sent (proc (run_all net clock isoformat exn_str cs s)))
    = (length (sent (proc s)) + length (filter (λ c, is_network_call c = true) cs))%nat.
Proof.
  induction cs as [|c cs IH]; intros s Hinv; simpl; [lia|].
  rewrite IH by (by apply run_one_handle).
  assert (c = Close ∨ c ≠ Close) as [->|Hc] by (destruct c; (by left) || (by right)).
  - destruct (close_spec net clock isoformat exn_str s Hinv) as (_ & _ & _ & _ & Hs & _).
    rewrite Hs. by rewrite filter_cons_False.
  - destruct (net_call_state net clock isoformat exn_str c s Hc Hinv)
      as (h & a & s1 & _ & _ & _ & Hsent & _).
    rewrite Hsent, length_app, filter_cons_True by (by destruct c). simpl. lia.
Qed.

(** X9.  An operation never rewrites the log: it leaves the earlier records
    in place and appends at most one record; over a sequence of operations
    the log grows by at most one record per operation. *)
Theorem log_is_append_only :
  ∀ (s : state),
    one_handle s →
    (∀ c, ∃ added, log (proc (snd (run'' c s))) = (log (proc s) ++ added)%list
                   ∧ (length added ≤ 1)%nat)
    ∧ (∀ cs, ∃ added,
          log (proc (run_all net clock isoformat exn_str cs s)) = (log (proc s) ++ added)%list
          ∧ (length added ≤ length cs)%nat).
Proof.
  assert (∀ s c, one_handle s →
            ∃ added, log (proc (snd (run'' c s))) = (log (proc s) ++ added)%list
                     ∧ (length added ≤ 1)%nat) as Hone.
  { intros s c Hinv.
    assert (c = Close ∨ c ≠ Close) as [->|Hc] by (destruct c; (by left) || (by right)).
    - destruct (close_spec net clock isoformat exn_str s Hinv) as (_ & _ & _ & _ & _ & Hl).
      exists []. rewrite Hl, app_nil_r. split; [done|simpl; lia].
    - destruct (net_call_result c s Hc Hinv) as (h & a & _ & _ & _ & Hout).
      cbv zeta in Hout.
      destruct (net _ a _) as [r|cls d|cls d].
      + destruct (is_success r); destruct Hout as [_ Hl].
        * exists (info (shape_of'' c)). split; [done|]. destruct c; simpl; lia.
        * eexists. split; [exact Hl|simpl; lia].
      + destruct Hout as [_ Hl]. eexists. split; [exact Hl|simpl; lia].
      + destruct Hout as [_ Hl]. exists []. rewrite Hl, app_nil_r. split; [done|simpl; lia]. }
  intros s Hinv. split; [intros c; by apply Hone|].
  intros cs. revert s Hinv. induction cs as [|c cs IH]; intros s Hinv; simpl.
  - exists []. rewrite app_nil_r. split; [done|simpl; lia].
  - destruct (Hone s c Hinv) as (a1 & H1 & L1).
    destruct (IH (snd (run'' c s))) as (a2 & H2 & L2); [by apply run_one_handle|].
    exists (a1 ++ a2)%list. rewrite H2, H1, <- app_assoc. split; [done|].
    rewrite length_app. lia.
Qed.

(** ** Attributes the operations do not read *)

Lemma get_http_client_config (cfg : gmap string pyval) (s : state) :
  _get_http_client (with_config cfg s)
  = (fst (_get_http_client s), with_config cfg (snd (_get_http_client s))).
Proof.
  unfold _get_http_client, mbind, M_bind, get_self, with_config.
  destruct s as [[cfg0 url key tn t r [h|]] p]; reflexivity.
Qed.

Ltac outcome_cases :=
  repeat match goal with
         | |- context [match ?l !! ?h with _ => _ end] => destruct (l !! h)
         | |- context [if is_closed ?a then _ else _] => destruct (is_closed a)
         | |- context [match net ?n ?a ?r with _ => _ end] => destruct (net n a r)
         | |- context [if is_success ?r then _ else _] => destruct (is_success r)
         end.

(** X10.  No operation reads the [config] attribute: replacing it before
    an operation changes neither the result of the operation nor anything
    else in the final state.  The attribute is written by the constructor
    and by nothing else. *)
Theorem config_is_not_read :
  ∀ (c : call) (cfg : gmap string pyval) (s : state),
    run'' c (with_config cfg s) = (fst (run'' c s), with_config cfg (snd (run'' c s))).
Proof.
  intros c cfg s.
  assert (c = Close ∨ c ≠ Close) as [->|Hc] by (destruct c; (by left) || (by right)).
  - unfold run, close, mbind, M_bind, get_self, with_config.
    destruct s as [[cfg0 url key tn t r [h|]] p]; reflexivity.
  - rewrite !(run_shape net clock isoformat exn_str) by done. unfold op_model.
    rewrite get_http_client_config.
    destruct (get_http_client_returns s) as (h & s1 & ->). simpl.
    outcome_cases; reflexivity.
Qed.

Lemma get_http_client_settings (url key tenant : string) (t : Z) (s : state) (h : nat) :
  _http_client (self s) = Some h →
  _get_http_client s = (Return h, s)
  ∧ _get_http_client (with_settings url key tenant t s)
    = (Return h, with_settings url key tenant t s).
Proof.
  unfold _get_http_client, mbind, M_bind, get_self, with_settings.
  destruct s as [[cfg0 url0 key0 tn0 t0 r [h'|]] p]; simpl; [|done].
  by intros [= ->].
Qed.

Lemma net_call_keeps_acquired (c : call) (s : state) :
  c ≠ Close →
  handles (proc (snd (run'' c s))) = handles (proc (snd (_get_http_client s)))
  ∧ self (snd (run'' c s)) = self (snd (_get_http_client s)).
Proof.
  intros Hc. rewrite (run_shape net clock isoformat exn_str) by done. unfold op_model.
  destruct (get_http_client_returns s) as (h & s1 & ->). simpl.
  outcome_cases; done.
Qed.

(** X11.  The handle keeps the settings it was built with.  While the
    client holds a handle, changing [api_url], [api_key], [tenant_id] or
    [timeout] changes nothing in what an operation does; once there is no
    handle (before the first use, or after [close]), the next network
    operation builds its handle from the current values. *)
Theorem settings_are_read_when_the_handle_is_built :
  (∀ (c : call) (url key tenant : string) (t : Z) (s : state) (h : nat),
      _http_client (self s) = Some h →
      run'' c (with_settings url key tenant t s)
      = (fst (run'' c s), with_settings url key tenant t (snd (run'' c s))))
  ∧ (∀ (c : call) (url key tenant : string) (t : Z) (s : state),
        c ≠ Close → _http_client (self s) = None →
        ∃ a, handles (proc (snd (run'' c (with_settings url key tenant t s))))
             = (handles (proc s) ++ [a])%list
             ∧ base_url a = url ∧ handle_timeout a = t
             ∧ follow_redirects a = true ∧ is_closed a = false
             ∧ (key ≠ "" → headers a !! "Authorization" = Some ("Bearer " ++ key))
             ∧ (tenant ≠ "" → headers a !! "X-Tenant-ID" = Some tenant)).
Proof.
  split.
  - intros c url key tenant t s h Hh.
    assert (c = Close ∨ c ≠ Close) as [->|Hc] by (destruct c; (by left) || (by right)).
    + unfold run, close, mbind, M_bind, get_self, with_settings.
      destruct s as [[cfg0 url0 key0 tn0 t0 r [h'|]] p]; reflexivity.
    + rewrite !(run_shape net clock isoformat exn_str) by done. unfold op_model.
      destruct (get_http_client_settings url key tenant t s h Hh) as [-> ->]. simpl.
      outcome_cases; reflexivity.
  - intros c url key tenant t s Hc Hnone.
    destruct (net_call_keeps_acquired c (with_settings url key tenant t s) Hc) as [-> _].
    unfold _get_http_client, mbind, M_bind, get_self, with_settings.
    destruct s as [[cfg0 url0 key0 tn0 t0 r [h'|]] p]; simpl in *; [done|].
    eexists. split; [reflexivity|]. simpl. split_and!; try reflexivity.
    + intros Hk. unfold truthy_str.
      destruct (String.eqb_spec key ""); [done|].
      destruct (String.eqb tenant ""); simpl; by simplify_map_eq.
    + intros Ht. unfold truthy_str.
      destruct (String.eqb_spec tenant ""); [done|]. simpl. by simplify_map_eq.
Qed.

(** ** Construction *)

(** X12.  The constructor touches nothing but the log: no handle, no
    request, no clock reading, and exactly one INFO record, which shows the
    stored URL.  Starting from a process with no open handle, the first
    network operation then builds the one handle, on the stored URL with the
    timeout passed to the constructor and redirects followed, and sends its
    request through it. *)
Theorem construction_is_offline :
  ∀ (u k tn : option string) (t r : Z) (cfg : option (gmap string pyval)) (p : process),
    let s0 := __init__ u k tn t r cfg p in
    handles (proc s0) = handles p ∧ sent (proc s0) = sent p
    ∧ clock_reads (proc s0) = clock_reads p ∧ environ (proc s0) = environ p
    ∧ _http_client (self s0) = None
    ∧ log (proc s0)
      = (log p ++ [(INFO, ("NatureOS client initialized - API: "
                           ++ api_url (self s0))%string)])%list
    ∧ (open_handles p = [] → ∀ c, c ≠ Close →
         ∃ a req,
           handles (proc (snd (run'' c s0))) = (handles p ++ [a])%list
           ∧ base_url a = api_url (self s0) ∧ handle_timeout a = t
           ∧ follow_redirects a = true ∧ is_closed a = false
           ∧ _http_client (self (snd (run'' c s0))) = Some (length (handles p))
           ∧ sent (proc (snd (run'' c s0)))
             = (sent p ++ [(length (handles p), req)])%list).
Proof.
  intros u k tn t r cfg p. cbv zeta. split_and!; try reflexivity.
  intros Hopen c Hc.
  pose proof (init_one_handle u k tn t r cfg p Hopen) as Hinv.
  destruct (net_call_state net clock isoformat exn_str c _ Hc Hinv)
    as (h & a & s1 & Hacq & _ & _ & Hsent & _).
  destruct Hacq as (_ & _ & _ & _ & _ & _ & _ & _ & Hcase).
  change (_http_client (self (__init__ u k tn t r cfg p))) with (@None nat) in Hcase.
  destruct Hcase as (-> & _).
  destruct (net_call_keeps_acquired c (__init__ u k tn t r cfg p) Hc) as [-> ->].
  eexists _, _. split_and!; try reflexivity. exact Hsent.
Qed.

(** ** Leaving the context *)

Lemma open_from_nil_closed (i : nat) (hs : list AsyncClient) :
  open_from i hs = [] → Forall (λ a, is_closed a = true) hs.
Proof.
  revert i. induction hs as [|a hs IH]; intros i; simpl; [constructor|].
  destruct (is_closed a) eqn:E; [|discriminate]. simpl. intros H.
  constructor; [done|by apply (IH (S i))].
Qed.

(** X13.  [__aenter__] changes nothing.  After any sequence of operations,
    [__aexit__] returns without raising and leaves every handle the client
    ever created closed and the reference empty; it sends nothing and writes
    nothing to the log. *)
Theorem aexit_closes_every_handle :
  ∀ (cs : list call) (s : state),
    one_handle s →
    let s1 := run_all net clock isoformat exn_str cs s in
    __aenter__ s = (Return tt, s)
    ∧ fst (__aexit__ s1) = Return tt
    ∧ _http_client (self (snd (__aexit__ s1))) = None
    ∧ Forall (λ a, is_closed a = true) (handles (proc (snd (__aexit__ s1))))
    ∧ length (handles (proc (snd (__aexit__ s1)))) = length (handles (proc s1))
    ∧ sent (proc (snd (__aexit__ s1))) = sent (proc s1)
    ∧ log (proc (snd (__aexit__ s1))) = log (proc s1).
Proof.
  intros cs s Hinv. cbv zeta.
  pose proof (run_all_one_handle net clock isoformat exn_str cs s Hinv) as Hinv1.
  revert Hinv1. generalize (run_all net clock isoformat exn_str cs s). intros s1 Hinv1.
  destruct (close_spec net clock isoformat exn_str s1 Hinv1)
    as (_ & Hnone & Hopen & Hlen & Hsent & Hlog).
  assert (run'' Close s1 = (Return VNone, snd (__aexit__ s1))
          ∧ fst (__aexit__ s1) = Return tt) as [Hrun Hret].
  { unfold run, __aexit__, close, mbind, M_bind, get_self.
    destruct (_http_client (self s1)); done. }
  rewrite Hrun in *. simpl in *.
  split_and!; try done. by apply (open_from_nil_closed 0).
Qed.

End Coverage.

(** ** More on construction *)

(** X14.  A non-empty [api_key] or [tenant_id] passed to the constructor is
    stored as it is, whatever the environment says.  An environment variable
    that is set to the empty string is used as it is: with
    [NATUREOS_API_URL] set but empty and no URL passed, the stored URL is
    empty, not the default.  The [config] attribute is the mapping passed,
    and the empty mapping when none is passed. *)
Theorem explicit_arguments_and_empty_variables :
  ∀ (p : process) (t r : Z),
    (∀ u k tn cfg, k ≠ "" → api_key (self (__init__ u (Some k) tn t r cfg p)) = k)
    ∧ (∀ u k tn cfg, tn ≠ "" → tenant_id (self (__init__ u k (Some tn) t r cfg p)) = tn)
    ∧ (∀ k tn cfg, environ p !! "NATUREOS_API_URL" = Some "" →
                   api_url (self (__init__ None k tn t r cfg p)) = "")
    ∧ (∀ u k tn cfg, config (self (__init__ u k tn t r cfg p)) = default ∅ cfg).
Proof.
  intros p t r. split_and!.
  - intros u k tn cfg Hk.
    change (api_key (self (__init__ u (Some k) tn t r cfg p)))
      with (or_str (Some k) (getenv (environ p) "NATUREOS_API_KEY" "")).
    by apply or_str_nonempty.
  - intros u k tn cfg Ht.
    change (tenant_id (self (__init__ u k (Some tn) t r cfg p)))
      with (or_str (Some tn) (getenv (environ p) "NATUREOS_TENANT_ID" "")).
    by apply or_str_nonempty.
  - intros k tn cfg Henv. simpl. unfold getenv. by rewrite Henv.
  - intros u k tn [cfg|]; simpl; [|done]. unfold truthy_dict.
    case_bool_decide as E; simpl; [by rewrite E|done].
Qed.

Lemma rstrip_slash_slashes (n : nat) : rstrip_slash (slashes n) = "".
Proof. induction n as [|n IH]; simpl; [done|]. by rewrite IH. Qed.

Lemma rstrip_slash_app_slashes (u : string) (n : nat) :
  rstrip_slash (u ++ slashes n) = rstrip_slash u.
Proof.
  induction u as [|c u IH]; simpl.
  - apply rstrip_slash_slashes.
  - by rewrite IH.
Qed.

(** X15.  The number of slashes at the end of the URL does not matter: a
    non-empty URL followed by any number of slashes gives the same client,
    field by field and log record included.  Stripping is idempotent, and a
    URL made of slashes only is stored as the empty string. *)
Theorem trailing_slashes_do_not_matter :
  (∀ u n, rstrip_slash (u ++ slashes n) = rstrip_slash u)
  ∧ (∀ u, rstrip_slash (rstrip_slash u) = rstrip_slash u)
  ∧ (∀ n, rstrip_slash (slashes n) = "")
  ∧ (∀ u n k tn t r cfg p,
        u ≠ "" →
        __init__ (Some (u ++ slashes n)) k tn t r cfg p = __init__ (Some u) k tn t r cfg p).
Proof.
  split_and!.
  - apply rstrip_slash_app_slashes.
  - intros u. destruct (rstrip_slash_suffix u) as [n Hn].
    rewrite Hn at 2. by rewrite rstrip_slash_app_slashes.
  - apply rstrip_slash_slashes.
  - intros u n k tn t r cfg p Hu. unfold __init__.
    rewrite !or_str_nonempty; [|done|by destruct u].
    by rewrite rstrip_slash_app_slashes.
Qed.

(** ** More on evaluating [exceptions.py] *)

Ltac in_names :=
  rewrite ?elem_of_union, ?elem_of_singleton, ?elem_of_empty;
  intuition (done || discriminate).

Ltac decide_name :=
  match goal with
  | |- context [bool_decide (?x ∈ ?X)] =>
      first [ rewrite (bool_decide_eq_true_2 (x ∈ X)) by in_names
            | rewrite (bool_decide_eq_false_2 (x ∈ X)) by in_names ]
  end.

(** X16.  [Optional] is the one name [exceptions.py] needs and does not
    bind.  Evaluated at module level with eager annotations in a namespace
    where [Optional] is not bound, the module raises [NameError] on it and
    leaves the namespace as it found it; in a namespace where [Optional] is
    bound, it evaluates to the end and binds the five classes. *)
Theorem exceptions_module_needs_only_Optional :
  ∀ (f : PyLoad.frame),
    PyLoad.class_locals f = None →
    ("Optional" ∉ PyLoad.globals f →
     fst (PyLoad.exceptions_module true f) = Raise (PyLoad.name_error "Optional")
     ∧ PyLoad.globals (snd (PyLoad.exceptions_module true f)) = PyLoad.globals f)
    ∧ ("Optional" ∈ PyLoad.globals f →
       fst (PyLoad.exceptions_module true f) = Return tt
       ∧ ∀ k, PyLoad.class_name k ∈ PyLoad.globals (snd (PyLoad.exceptions_module true f))).
Proof.
  intros [g cl] Hcl. simpl in Hcl. subst cl. split; intros Hopt; simpl in Hopt.
  - unfold PyLoad.exceptions_module, PyLoad.class_, PyLoad.def_, PyLoad.eval_names,
      PyLoad.lookup_name, PyLoad.bind_name, PyLoad.builtins, mbind, PyLoad.L_bind, mret,
      PyLoad.L_ret; simpl.
    repeat decide_name. simpl. done.
  - unfold PyLoad.exceptions_module, PyLoad.class_, PyLoad.def_, PyLoad.eval_names,
      PyLoad.lookup_name, PyLoad.bind_name, PyLoad.builtins, mbind, PyLoad.L_bind, mret,
      PyLoad.L_ret; simpl.
    repeat (decide_name; simpl). split; [done|].
    intros k. destruct k; simpl; in_names.
Qed.

(** ** Examples for the further properties *)

Lemma get_device_returns_the_body_witness :
  one_handle demo_state
  ∧ fst (get_device net_200 demo_exn_str "dev-1" demo_state) = Return (VDict ∅).
Proof.
  assert (one_handle demo_state) as Hinv by reflexivity.
  split; [exact Hinv|].
  destruct (get_device_returns_the_body net_200 demo_clock demo_isoformat demo_exn_str
              "dev-1" demo_state Hinv) as (h & a & _ & _ & H).
  exact (proj1 (H (mkResponse 200 (Some (VDict ∅))) (VDict ∅) eq_refl eq_refl eq_refl)).
Defined.

Lemma send_command_posts_both_keys_witness :
  one_handle demo_state
  ∧ fst (send_command net_200 demo_exn_str "dev-1" "reboot" ∅ demo_state)
    = Return (VDict ∅).
Proof.
  assert (one_handle demo_state) as Hinv by reflexivity.
  split; [exact Hinv|].
  destruct (send_command_posts_both_keys net_200 demo_clock demo_isoformat demo_exn_str
              "dev-1" "reboot" ∅ demo_state Hinv)
    as (h & a & body & _ & _ & _ & _ & _ & H).
  exact (proj1 (H (mkResponse 200 (Some (VDict ∅))) (VDict ∅) eq_refl eq_refl eq_refl)).
Defined.

Lemma register_device_logs_before_parsing_witness :
  one_handle demo_state
  ∧ (∃ detail,
        fst (register_device net_200_text demo_exn_str "dev-1" "Probe" "sensor" None None
               demo_state)
        = Raise (BuiltinError "JSONDecodeError" detail))
  ∧ log (proc (snd (register_device net_200_text demo_exn_str "dev-1" "Probe" "sensor"
                      None None demo_state)))
    = (log (proc demo_state) ++ [(INFO, "Registered device: dev-1")])%list.
Proof.
  assert (one_handle demo_state) as Hinv by reflexivity.
  split; [exact Hinv|].
  destruct (register_device_logs_before_parsing net_200_text demo_clock demo_isoformat
              demo_exn_str "dev-1" "Probe" "sensor" None None demo_state Hinv)
    as (h & a & _ & _ & H).
  destruct (H (mkResponse 200 None) eq_refl eq_refl) as (Hlog & _ & Hraise).
  split; [exact (Hraise eq_refl)|exact Hlog].
Defined.

Lemma only_httpx_errors_are_logged_witness :
  GetDevice "dev-1" ≠ Close
  ∧ one_handle demo_state
  ∧ fst (run net_invalid_url demo_clock demo_isoformat demo_exn_str (GetDevice "dev-1")
           demo_state)
    = Raise (BuiltinError "InvalidURL" "No scheme included in URL.")
  ∧ log (proc (snd (run net_invalid_url demo_clock demo_isoformat demo_exn_str
                      (GetDevice "dev-1") demo_state)))
    = log (proc demo_state).
Proof.
  assert (GetDevice "dev-1" ≠ Close) as Hc by discriminate.
  assert (one_handle demo_state) as Hinv by reflexivity.
  split; [exact Hc|]. split; [exact Hinv|].
  destruct (only_httpx_errors_are_logged net_invalid_url demo_clock demo_isoformat
              demo_exn_str (GetDevice "dev-1") demo_state Hc Hinv)
    as (h & a & req & _ & _ & H & _).
  exact (H "InvalidURL" "No scheme included in URL." eq_refl).
Defined.

Lemma get_sensor_data_returns_items_witness :
  one_handle demo_state
  ∧ fst (get_sensor_data net_200 demo_clock demo_isoformat demo_exn_str "dev-1" None
           None None 1000 demo_state)
    = Return (VList []).
Proof.
  assert (one_handle demo_state) as Hinv by reflexivity.
  split; [exact Hinv|].
  destruct (get_sensor_data_returns_items net_200 demo_clock demo_isoformat demo_exn_str
              "dev-1" None None None 1000 demo_state Hinv)
    as (h & a & req & _ & _ & _ & _ & _ & H).
  destruct (H (mkResponse 200 (Some (VDict ∅))) eq_refl eq_refl) as (_ & Hitems & _).
  exact (Hitems ∅ eq_refl).
Defined.

Lemma get_sensor_data_query_and_clock_witness :
  one_handle demo_state
  ∧ clock_reads (proc (snd (get_sensor_data net_200 demo_clock demo_isoformat
                              demo_exn_str "dev-1" None (Some 0) (Some 86400000000) 1000
                              demo_state)))
    = clock_reads (proc demo_state).
Proof.
  assert (one_handle demo_state) as Hinv by reflexivity.
  split; [exact Hinv|].
  destruct (get_sensor_data_query_and_clock net_200 demo_clock demo_isoformat
              demo_exn_str "dev-1" None (Some 0) (Some 86400000000) 1000 demo_state Hinv)
    as (h & req & _ & _ & _ & _ & _ & _ & H).
  exact H.
Defined.

Lemma list_devices_query_witness :
  one_handle demo_state
  ∧ ∃ h, sent (proc (snd (list_devices net_200 demo_exn_str (Some "mycobrain") (Some "")
                            10 demo_state)))
         = (sent (proc demo_state)
            ++ [(h, mkRequest GET "/devices"
                      (list_devices_params (Some "mycobrain") (Some "") 10) None)])%list.
Proof.
  assert (one_handle demo_state) as Hinv by reflexivity.
  split; [exact Hinv|].
  destruct (list_devices_query net_200 demo_clock demo_isoformat demo_exn_str
              (Some "mycobrain") (Some "") 10) as (_ & _ & _ & _ & H).
  exact (H demo_state Hinv).
Defined.

Lemma one_request_per_network_call_witness :
  one_handle demo_state
  ∧ length (sent (proc (run_all net_500 demo_clock demo_isoformat demo_exn_str
                          [GetDevice "a"; Close; GetDevice "b"] demo_state)))
    = 2%nat.
Proof.
  assert (one_handle demo_state) as Hinv by reflexivity.
  split; [exact Hinv|].
  rewrite (one_request_per_network_call net_500 demo_clock demo_isoformat demo_exn_str
             [GetDevice "a"; Close; GetDevice "b"] demo_state Hinv).
  reflexivity.
Defined.

Lemma log_is_append_only_witness :
  one_handle demo_state
  ∧ ∃ added,
      log (proc (snd (run net_500 demo_clock demo_isoformat demo_exn_str
                        (GetDevice "dev-1") demo_state)))
      = (log (proc demo_state) ++ added)%list
      ∧ (length added ≤ 1)%nat.
Proof.
  assert (one_handle demo_state) as Hinv by reflexivity.
  split; [exact Hinv|].
  exact (proj1 (log_is_append_only net_500 demo_clock demo_isoformat demo_exn_str
                  demo_state Hinv) (GetDevice "dev-1")).
Defined.

Lemma settings_are_read_when_the_handle_is_built_witness :
  _http_client (self demo_connected) = Some 0%nat
  ∧ run net_200 demo_clock demo_isoformat demo_exn_str (GetDevice "dev-2")
        (with_settings "https://other.example" "secret" "acme" 5 demo_connected)
    = (fst (run net_200 demo_clock demo_isoformat demo_exn_str (GetDevice "dev-2")
              demo_connected),
       with_settings "https://other.example" "secret" "acme" 5
         (snd (run net_200 demo_clock demo_isoformat demo_exn_str (GetDevice "dev-2")
                 demo_connected))).
Proof.
  assert (_http_client (self demo_connected) = Some 0%nat) as Hh
    by (vm_compute; reflexivity).
  split; [exact Hh|].
  exact (proj1 (settings_are_read_when_the_handle_is_built net_200 demo_clock
                  demo_isoformat demo_exn_str)
           (GetDevice "dev-2") "https://other.example" "secret" "acme" 5 demo_connected
           0%nat Hh).
Defined.

Lemma construction_is_offline_witness :
  open_handles demo_process = []
  ∧ GetDevice "dev-1" ≠ Close
  ∧ ∃ a req,
      handles (proc (snd (run net_200 demo_clock demo_isoformat demo_exn_str
                            (GetDevice "dev-1") demo_state)))
      = (handles demo_process ++ [a])%list
      ∧ base_url a = "http://localhost:8002"
      ∧ sent (proc (snd (run net_200 demo_clock demo_isoformat demo_exn_str
                           (GetDevice "dev-1") demo_state)))
        = (sent demo_process ++ [(0%nat, req)])%list.
Proof.
  assert (open_handles demo_process = []) as Hopen by reflexivity.
  assert (GetDevice "dev-1" ≠ Close) as Hc by discriminate.
  split; [exact Hopen|]. split; [exact Hc|].
  destruct (construction_is_offline net_200 demo_clock demo_isoformat demo_exn_str
              None None None 30 3 None demo_process) as (_ & _ & _ & _ & _ & _ & H).
  destruct (H Hopen (GetDevice "dev-1") Hc) as (a & req & Hhs & Hurl & _ & _ & _ & _ & Hs).
  exists a, req. split; [exact Hhs|]. split; [exact Hurl|exact Hs].
Defined.

Lemma aexit_closes_every_handle_witness :
  one_handle demo_state
  ∧ Forall (λ a, is_closed a = true)
      (handles (proc (snd (__aexit__
                             (run_all net_200 demo_clock demo_isoformat demo_exn_str
                                [GetDevice "dev-1"; GetDevice "dev-2"] demo_state))))).
Proof.
  assert (one_handle demo_state) as Hinv by reflexivity.
  split; [exact Hinv|].
  destruct (aexit_closes_every_handle net_200 demo_clock demo_isoformat demo_exn_str
              [GetDevice "dev-1"; GetDevice "dev-2"] demo_state Hinv)
    as (_ & _ & _ & H & _).
  exact H.
Defined.

Lemma explicit_arguments_and_empty_variables_witness :
  "secret" ≠ ""
  ∧ api_key (self (__init__ None (Some "secret") None 30 3 None
                     (mkProcess {[ "NATUREOS_API_KEY" := "from-env" ]} [] 0 [] [])))
    = "secret".
Proof.
  assert ("secret" ≠ "") as Hk by discriminate.
  split; [exact Hk|].
  exact (proj1 (explicit_arguments_and_empty_variables
                  (mkProcess {[ "NATUREOS_API_KEY" := "from-env" ]} [] 0 [] []) 30 3)
           None "secret" None None Hk).
Defined.

Lemma trailing_slashes_do_not_matter_witness :
  "https://api.example.org" ≠ ""
  ∧ __init__ (Some ("https://api.example.org" ++ slashes 2)) None None 30 3 None
      demo_process
    = __init__ (Some "https://api.example.org") None None 30 3 None demo_process.
Proof.
  assert ("https://api.example.org" ≠ "") as Hu by discriminate.
  split; [exact Hu|].
  destruct trailing_slashes_do_not_matter as (_ & _ & _ & H).
  exact (H "https://api.example.org" 2%nat None None 30 3 None demo_process Hu).
Defined.

Lemma exceptions_module_needs_only_Optional_witness :
  PyLoad.class_locals PyLoad.fresh = None
  ∧ ("Optional" ∉ PyLoad.globals PyLoad.fresh)
  ∧ fst (PyLoad.exceptions_module true PyLoad.fresh) = Raise (PyLoad.name_error "Optional").
Proof.
  assert ("Optional" ∉ PyLoad.globals PyLoad.fresh) as Hopt
    by (apply (bool_decide_unpack _); vm_compute; exact I).
  split; [reflexivity|]. split; [exact Hopt|].
  exact (proj1 (proj1 (exceptions_module_needs_only_Optional PyLoad.fresh eq_refl) Hopt)).
Defined.
